(** * Verification of sktime's dtw-python aligners and the classification
    result collator.

    Sources embedded:
    - sktime/contrib/result_collator/classification_results_collator.py
      (module [Collator]): [get_enum_from_url] with its [lru_cache], the
      class attributes of [ClassificationResultCollator], [get_results]
      and [_check_valid_parameters];
    - sktime/alignment/dtw_python.py (module [Aligners]): [AlignerDTW]
      and [AlignerDTWdist] with their constructors, [_fit] and post-fit
      queries.

    Python values are modelled with the types the code handles: strings
    as [String.string], integers as [Z], exceptions as [exc], an object's
    [__dict__] as a [gmap string attr]. *)

From Stdlib Require Import String Ascii ZArith Floats.
From stdpp Require Import base gmap strings list.

Open Scope string_scope.

(* ------------------------------------------------------------------ *)
(** ** Python runtime fragments shared by both source files *)

Module Py.

(** Exceptions raised by the code, with their messages. *)
Inductive exc :=
| TypeError (msg : string)
| ValueError (msg : string)
| KeyError (key : string)
| IndexError (msg : string)
| AttributeError (name : string)
| FetchError (url : string).

(** Outcome of a Python computation: a value or a raised exception. *)
Inductive result (A : Type) :=
| Ok (a : A)
| Exc (e : exc).
Arguments Ok {A} a.
Arguments Exc {A} e.

Definition bind {A B} (m : result A) (f : A -> result B) : result B :=
  match m with Ok a => f a | Exc e => Exc e end.

Notation "x <- m ;; k" := (bind m (fun x => k))
  (at level 100, m at next level, right associativity).
Notation "m ;;; k" := (bind m (fun _ => k))
  (at level 100, right associativity).

(** [a.startswith(b)] with the arguments swapped: [b] is a prefix of [a]. *)
Fixpoint is_prefix (p s : string) : bool :=
  match p, s with
  | EmptyString, _ => true
  | String c p', String d s' => Ascii.eqb c d && is_prefix p' s'
  | String _ _, EmptyString => false
  end.

(** Python's [needle in hay] on strings: substring test. *)
Fixpoint str_contains (needle hay : string) : bool :=
  is_prefix needle hay ||
  match hay with
  | EmptyString => false
  | String _ hay' => str_contains needle hay'
  end.

(** Python's [x in xs] on a list of strings. *)
Definition list_contains (x : string) (xs : list string) : bool :=
  existsb (String.eqb x) xs.

Definition hex_digit (n : nat) : ascii :=
  if Nat.ltb n 10 then ascii_of_nat (48 + n) else ascii_of_nat (87 + n).

(** One character of [repr] of a string, inside quotes [q]. *)
Definition repr_char (q : ascii) (c : ascii) : string :=
  let n := nat_of_ascii c in
  if Ascii.eqb c "\" then "\\"
  else if Ascii.eqb c q then String "\" (String q EmptyString)
  else if Nat.eqb n 10 then "\n"
  else if Nat.eqb n 13 then "\r"
  else if Nat.eqb n 9 then "\t"
  else if Nat.ltb n 32 || Nat.eqb n 127 then
    String "\" (String "x" (String (hex_digit (n / 16))
      (String (hex_digit (n mod 16)) EmptyString)))
  else String c EmptyString.

Fixpoint repr_body (q : ascii) (s : string) : string :=
  match s with
  | EmptyString => EmptyString
  | String c s' => repr_char q c +:+ repr_body q s'
  end.

(** [repr] of a str: single quotes, unless the text has a single quote
    and no double quote. *)
Definition py_repr_str (s : string) : string :=
  let dq := ascii_of_nat 34 in
  let q := if str_contains "'" s && negb (str_contains (String dq EmptyString) s)
           then dq else "'"%char in
  String q (repr_body q s +:+ String q EmptyString).

Fixpoint join_comma (xs : list string) : string :=
  match xs with
  | [] => EmptyString
  | [x] => x
  | x :: xs' => x +:+ ", " +:+ join_comma xs'
  end.

(** [str] of a list of str, as an f-string renders it. *)
Definition py_list_str (xs : list string) : string :=
  "[" +:+ join_comma (map py_repr_str xs) +:+ "]".

Fixpoint digits (fuel : nat) (n : N) (acc : string) : string :=
  match fuel with
  | O => acc
  | S f =>
      let acc' := String (ascii_of_nat (48 + N.to_nat (N.modulo n 10))) acc in
      if N.ltb n 10 then acc' else digits f (N.div n 10) acc'
  end.

(** [str] of an int. *)
Definition py_str_int (z : Z) : string :=
  let body := digits (S (Z.to_nat (Z.log2 (Z.abs z)))) (Z.to_N (Z.abs z)) EmptyString in
  if Z.ltb z 0 then "-" +:+ body else body.



End Py.
Import Py.

(* ------------------------------------------------------------------ *)
(** ** classification_results_collator.py *)

Module Collator.

(** A parsed JSON record ([TSClassProblemDict], [TSClassClassifiersDict]):
    a dict from keys to (string) values. *)
Abbreviation record := (gmap string string).

(** Network traffic, in the order it happens. *)
Inductive event := Fetch (url : string).

(** What the network answers: [requests.get(url).json()] as a JSON array
    of records, and [requests.get(url).text]; [None] is a transport or
    parse failure. *)
Record net := {
  get_json : string -> option (list record);
  get_text : string -> option string
}.

(** Process-wide state: the [lru_cache] of [get_enum_from_url], keyed by
    its positional arguments [(url, key)], and the traffic log. *)
Record world := {
  cache : gmap (string * string) (list string);
  log : list event
}.

Definition empty_world : world := {| cache := ∅; log := [] |}.

Definition PROBLEM_REQUEST_URL : string :=
  "https://timeseriesclassification.com/JSON/datasetTable.json?order=asc".
Definition CLASSIFIERS_REQUEST_URL : string :=
  "https://timeseriesclassification.com/JSON/algorithmTable.json?order=asc".

(** The loop [for response in responses: enum_arr.append(response[key])];
    a record without [key] raises [KeyError]. *)
Fixpoint collect_key (key : string) (responses : list record)
  : result (list string) :=
  match responses with
  | [] => Ok []
  | response :: rest =>
      match response !! key with
      | None => Exc (KeyError key)
      | Some v => vs <- collect_key key rest ;; Ok (v :: vs)
      end
  end.

(** The undecorated body of [get_enum_from_url]: one fetch, then the
    extraction. *)
Definition get_enum_from_url_body (n : net) (url key : string) (w : world)
  : result (list string) * world :=
  let w1 := {| cache := cache w; log := log w ++ [Fetch url] |} in
  match get_json n url with
  | None => (Exc (FetchError url), w1)
  | Some responses => (collect_key key responses, w1)
  end.

(** [@lru_cache(maxsize=None)] around it: a hit returns the stored list
    without running the body; a miss runs the body and stores its value
    only when it returns normally (an exception caches nothing). *)
Definition get_enum_from_url (n : net) (url key : string) (w : world)
  : result (list string) * world :=
  match cache w !! (url, key) with
  | Some vs => (Ok vs, w)
  | None =>
      match get_enum_from_url_body n url key w with
      | (Ok vs, w1) =>
          (Ok vs, {| cache := <[(url, key) := vs]> (cache w1); log := log w1 |})
      | (Exc e, w1) => (Exc e, w1)
      end
  end.

(** The class attributes of [ClassificationResultCollator]. *)
Definition VALID_TOOLKITS : list string := ["sktime"; "tsml"].
Definition VALID_METRICS : list string := ["accuracy"; "f1"].
Definition VALID_DOMAIN : string := "https://timeseriesclassification.com".

(** The two attributes computed by calls when the class body runs. *)
Record class_attrs := {
  VALID_CLASSIFIERS : list string;
  VALID_PROBLEMS : list string
}.

(** Executing the class body (at module import): the two enumeration
    lookups run right there, classifiers first. *)
Definition define_class (n : net) (w : world) : result class_attrs * world :=
  match get_enum_from_url n CLASSIFIERS_REQUEST_URL "Acronym" w with
  | (Exc e, w1) => (Exc e, w1)
  | (Ok classifiers, w1) =>
      match get_enum_from_url n PROBLEM_REQUEST_URL "Dataset" w1 with
      | (Exc e, w2) => (Exc e, w2)
      | (Ok problems, w2) =>
          (Ok {| VALID_CLASSIFIERS := classifiers; VALID_PROBLEMS := problems |}, w2)
      end
  end.

(** A [ListOrStr] argument as the code can receive it: a str, a list
    whose elements are str or [None], or [None] itself. *)
Inductive param :=
| PStr (s : string)
| PList (xs : list (option string))
| PNone.

(** The inner [check(value)] of [_check_valid_parameters]. *)
Definition check (parameter_name : string) (valid_list : list string)
  (value : option string) : result unit :=
  match value with
  | None => Exc (TypeError ("The parameter " +:+ parameter_name +:+ " cannot be None"))
  | Some v =>
      if list_contains v valid_list then Ok tt
      else Exc (TypeError ("The parameter " +:+ parameter_name +:+ " of value "
                 +:+ v +:+ " is invalid. Please use a value from "
                 +:+ py_list_str valid_list))
  end.

(** [for val in check_values: check(val)] *)
Fixpoint check_all (parameter_name : string) (valid_list : list string)
  (values : list (option string)) : result unit :=
  match values with
  | [] => Ok tt
  | v :: vs => check parameter_name valid_list v ;;; check_all parameter_name valid_list vs
  end.

(** [_check_valid_parameters].  The wildcard test [check_values is "*"]
    is modelled as string equality: CPython keeps one object per
    one-character string.  Iterating [None] raises Python's own
    [TypeError]. *)
Definition _check_valid_parameters (check_values : param)
  (valid_list : list string) (parameter_name : string) : result param :=
  match check_values with
  | PStr s =>
      if String.eqb s "*" then Ok (PList (map Some valid_list))
      else check parameter_name valid_list (Some s) ;;; Ok check_values
  | PList xs => check_all parameter_name valid_list xs ;;; Ok check_values
  | PNone => Exc (TypeError "'NoneType' object is not iterable")
  end.

(** The fields of a [ClassificationResultCollator] instance. *)
Record collator := {
  urls : list string;
  classifiers : param;
  problem_list : param;
  metric : param;
  resamples : Z;
  toolkit : param;
  _classifiers : param;
  _problem_list : param
}.

(** Modelled from the spec: [ResultCollator.__init__] (the base class in
    sktime.contrib.result_collator, not in this fragment) stores the
    configured list of endpoint URLs (spec 4.4, "State"). *)
Definition ResultCollator_init (urls0 : list string) : list string := urls0.

(** [ClassificationResultCollator.__init__]: no network traffic. *)
Definition new_collator (urls0 : list string) (classifiers0 problem_list0 : param)
  (metric0 : param) (resamples0 : Z) (toolkit0 : param) : collator :=
  {| urls := ResultCollator_init urls0;
     classifiers := classifiers0; problem_list := problem_list0;
     metric := metric0; resamples := resamples0; toolkit := toolkit0;
     _classifiers := PList []; _problem_list := PList [] |}.

(** [ClassificationResultCollator(urls)] with the default arguments. *)
Definition new_collator_default (urls0 : list string) : collator :=
  new_collator urls0 (PStr "*") (PStr "*") (PStr "accuracy") 1 (PStr "sktime").

(** The state [get_results] runs on: the instance and the process. *)
Record state := { self : collator; wld : world }.

(** A state and exception monad for the method bodies. *)
Definition M (A : Type) := state -> result A * state.

Definition mret {A} (a : A) : M A := fun s => (Ok a, s).
Definition mbind {A B} (m : M A) (f : A -> M B) : M B :=
  fun s => match m s with
           | (Ok a, s') => f a s'
           | (Exc e, s') => (Exc e, s')
           end.
Definition lift {A} (r : result A) : M A := fun s => (r, s).
Definition get_self : M collator := fun s => (Ok (self s), s).
Definition put_self (c : collator) : M unit :=
  fun s => (Ok tt, {| self := c; wld := wld s |}).
Definition on_world {A} (f : world -> result A * world) : M A :=
  fun s => let '(r, w') := f (wld s) in (r, {| self := self s; wld := w' |}).

Notation "'let*' x := m 'in' k" := (mbind m (fun x => k))
  (at level 200, x name, m at level 100, k at level 200).

Definition set_classifiers (c : collator) (v : param) : collator :=
  {| urls := urls c; classifiers := classifiers c; problem_list := problem_list c;
     metric := metric c; resamples := resamples c; toolkit := toolkit c;
     _classifiers := v; _problem_list := _problem_list c |}.
Definition set_problem_list (c : collator) (v : param) : collator :=
  {| urls := urls c; classifiers := classifiers c; problem_list := problem_list c;
     metric := metric c; resamples := resamples c; toolkit := toolkit c;
     _classifiers := _classifiers c; _problem_list := v |}.
Definition set_resamples (c : collator) (v : Z) : collator :=
  {| urls := urls c; classifiers := classifiers c; problem_list := problem_list c;
     metric := metric c; resamples := v; toolkit := toolkit c;
     _classifiers := _classifiers c; _problem_list := _problem_list c |}.
Definition set_toolkit (c : collator) (v : param) : collator :=
  {| urls := urls c; classifiers := classifiers c; problem_list := problem_list c;
     metric := metric c; resamples := resamples c; toolkit := v;
     _classifiers := _classifiers c; _problem_list := _problem_list c |}.

Definition url_error (url : string) : exc :=
  TypeError ("The url " +:+ url +:+ " is invalid. Please use a url "
             +:+ "from the domain " +:+ VALID_DOMAIN).

(** [for url in self.urls: if VALID_DOMAIN not in url: raise ...] *)
Fixpoint check_domain (us : list string) : result unit :=
  match us with
  | [] => Ok tt
  | url :: rest =>
      if negb (str_contains VALID_DOMAIN url) then Exc (url_error url)
      else check_domain rest
  end.

(** [str] of the [metric] attribute, as the f-string renders it. *)
Definition py_str_param (p : param) : string :=
  match p with
  | PStr s => s
  | PList xs =>
      "[" +:+ join_comma (map (fun o => match o with
                                       | Some v => py_repr_str v
                                       | None => "None" end) xs) +:+ "]"
  | PNone => "None"
  end.

(** The resamples check; its message interpolates [self.metric]. *)
Definition resamples_error (c : collator) : exc :=
  TypeError ("The number of resamples " +:+ py_str_param (metric c)
             +:+ " is invalid. " +:+ "The number of resamples must be between 1 and 30").

Definition check_resamples (c : collator) : result unit :=
  if Z.ltb (resamples c) 1 || Z.ltb 30 (resamples c) then Exc (resamples_error c)
  else Ok tt.

(** [_format_result]: split on newlines, then on commas; every cell a str. *)
Fixpoint split_on (sep : ascii) (s : string) : list string :=
  match s with
  | EmptyString => [EmptyString]
  | String c s' =>
      if Ascii.eqb c sep then EmptyString :: split_on sep s'
      else match split_on sep s' with
           | [] => [String c EmptyString]
           | w :: ws => String c w :: ws
           end
  end.

Definition _format_result (response : string) : list (list string) :=
  map (split_on ",") (split_on (ascii_of_nat 10) response).

(** Modelled from the spec: [ResultCollator.get_results] (the base class,
    not in this fragment) performs one fetch per configured URL and parses
    each raw text response with [_format_result] (spec 4.4, step 7);
    transport failures propagate. *)
Fixpoint fetch_all (n : net) (us : list string) (w : world)
  : result (list (list (list string))) * world :=
  match us with
  | [] => (Ok [], w)
  | url :: rest =>
      let w1 := {| cache := cache w; log := log w ++ [Fetch url] |} in
      match get_text n url with
      | None => (Exc (FetchError url), w1)
      | Some response =>
          match fetch_all n rest w1 with
          | (Ok tables, w2) => (Ok (_format_result response :: tables), w2)
          | (Exc e, w2) => (Exc e, w2)
          end
      end
  end.

Definition ResultCollator_get_results (n : net) : M (list (list (list string))) :=
  let* c := get_self in on_world (fetch_all n (urls c)).

(** [ClassificationResultCollator.get_results]. *)
Definition get_results (ca : class_attrs) (n : net) : M (list (list (list string))) :=
  let* c := get_self in
  let* _ := lift (check_domain (urls c)) in
  let* v := lift (_check_valid_parameters (classifiers c) (VALID_CLASSIFIERS ca) "classifier") in
  let* _ := put_self (set_classifiers c v) in
  let* c := get_self in
  let* v := lift (_check_valid_parameters (problem_list c) (VALID_PROBLEMS ca) "problem") in
  let* _ := put_self (set_problem_list c v) in
  let* c := get_self in
  let* _ := lift (_check_valid_parameters (metric c) VALID_METRICS "metric") in
  let* _ := lift (check_resamples c) in
  let* v := lift (_check_valid_parameters (toolkit c) VALID_TOOLKITS "toolkit") in
  let* _ := put_self (set_toolkit c v) in
  ResultCollator_get_results n.

(** A whole process: the module is imported (the class body runs), a
    collator is built, and [get_results] is called once.  Returns the
    outcome and the traffic log. *)
Definition program_run (n : net) (c : collator)
  : result (list (list (list string))) * list event :=
  match define_class n empty_world with
  | (Exc e, w) => (Exc e, log w)
  | (Ok ca, w) =>
      let '(r, s) := get_results ca n {| self := c; wld := w |} in (r, log (wld s))
  end.

End Collator.

(* ------------------------------------------------------------------ *)
(** ** dtw_python.py *)

Module Aligners.

(** The classes involved in [super] calls.  The bases of [BaseAligner]
    live outside this fragment; neither aligner is among them, so they
    are collapsed to [object]. *)
Inductive cls := object | BaseAligner | AlignerDTW | AlignerDTWdist.

Definition cls_eqb (a b : cls) : bool :=
  match a, b with
  | object, object | BaseAligner, BaseAligner
  | AlignerDTW, AlignerDTW | AlignerDTWdist, AlignerDTWdist => true
  | _, _ => false
  end.

(** Method resolution order, from [class AlignerDTW(BaseAligner)] and
    [class AlignerDTWdist(BaseAligner)]. *)
Definition mro (c : cls) : list cls :=
  match c with
  | object => [object]
  | BaseAligner => [BaseAligner; object]
  | AlignerDTW => [AlignerDTW; BaseAligner; object]
  | AlignerDTWdist => [AlignerDTWdist; BaseAligner; object]
  end.

(** [isinstance(obj, t)] for an instance whose class is [c]. *)
Definition isinstance (c t : cls) : bool := existsb (cls_eqb t) (mro c).

(** A pandas DataFrame: its columns in order, each with its values. *)
Abbreviation frame := (list (string * list float)).

Definition frame_columns (f : frame) : list string := map fst f.

(** [f[name].values] *)
Definition frame_column (f : frame) (name : string) : result (list float) :=
  match find (fun p => String.eqb (fst p) name) f with
  | Some (_, v) => Ok v
  | None => Exc (KeyError name)
  end.

(** The object returned by [dtw.dtw]: the two index arrays of the
    warping path and the overall distance. *)
Record alignment := {
  index1 : list Z;
  index2 : list Z;
  distance : float
}.

(** Attribute values stored on an aligner. *)
Inductive attr :=
| AStr (s : string)
| ABool (b : bool)
| ANone
| AObj (id : nat)
| AAlign (a : alignment)
| AFrames (X : list frame).

(** The calls the aligners make to the external [dtw] function: on two
    vectors with a local distance, or on a precomputed distance matrix;
    [keep_internals=True] in both. *)
Inductive dtw_call :=
| DtwVectors (x y : list float)
    (dist_method step_pattern window_type open_begin open_end : attr)
| DtwMatrix (distmat : list (list float))
    (step_pattern window_type open_begin open_end : attr).

(** An object's [__dict__] with a state and exception monad over it. *)
Abbreviation dict := (gmap string attr).

Definition O (A : Type) := dict -> result A * dict.

Definition oret {A} (a : A) : O A := fun d => (Ok a, d).
Definition obind {A B} (m : O A) (f : A -> O B) : O B :=
  fun d => match m d with
           | (Ok a, d') => f a d'
           | (Exc e, d') => (Exc e, d')
           end.
Definition oraise {A} (e : exc) : O A := fun d => (Exc e, d).
Definition olift {A} (r : result A) : O A := fun d => (r, d).
Definition getattr (name : string) : O attr :=
  fun d => match d !! name with
           | Some v => (Ok v, d)
           | None => (Exc (AttributeError name), d)
           end.
Definition setattr (name : string) (v : attr) : O unit :=
  fun d => (Ok tt, <[name := v]> d).

Notation "'let*' x := m 'in' k" := (obind m (fun x => k))
  (at level 200, x name, m at level 100, k at level 200).

Definition super_error : exc :=
  TypeError "super(type, obj): obj must be an instance or subtype of type".

(** [super(t, self)] for [self] of class [c]: checked when the proxy is
    built, before any method is looked up on it. *)
Definition py_super (t c : cls) : O unit :=
  if isinstance c t then oret tt else oraise super_error.

(** Modelled from the spec: [BaseAligner.__init__] (sktime.alignment._base,
    not in this fragment) returns normally; construction of an aligner
    succeeds when its own checks pass (spec 4.2). *)
Definition BaseAligner___init__ : O unit := oret tt.

(** [X[i]] on the list of sequences. *)
Definition list_index {A} (xs : list A) (i : nat) : result A :=
  match xs !! i with
  | Some x => Ok x
  | None => Exc (IndexError "list index out of range")
  end.

(** [str] of an attribute value, as an f-string renders it. *)
Definition py_str_attr (v : attr) : string :=
  match v with
  | AStr s => s
  | ABool true => "True"
  | ABool false => "False"
  | ANone => "None"
  | _ => "<object>"
  end.

(** [v in f.columns.values] *)
Definition in_columns (v : attr) (cols : list string) : bool :=
  match v with AStr s => list_contains s cols | _ => false end.

(** [f[v].values] *)
Definition attr_column (f : frame) (v : attr) : result (list float) :=
  match v with
  | AStr s => frame_column f s
  | _ => Exc (KeyError (py_str_attr v))
  end.

(** An aligner instance: its class and its [__dict__]. *)
Record instance := { inst_cls : cls; inst_dict : dict }.

(** Calling the class: [__init__] runs on a fresh, empty [__dict__]. *)
Definition construct (c : cls) (init : cls -> O unit) : result instance :=
  match init c ∅ with
  | (Ok _, d) => Ok {| inst_cls := c; inst_dict := d |}
  | (Exc e, _) => Exc e
  end.

(** *** AlignerDTW *)

Record AlignerDTW_args := {
  dist_method_arg : attr;
  step_pattern_arg : attr;
  window_type_arg : attr;
  open_begin_arg : attr;
  open_end_arg : attr;
  variable_to_align_arg : attr
}.

Definition AlignerDTW_defaults : AlignerDTW_args :=
  {| dist_method_arg := AStr "euclidean"; step_pattern_arg := AStr "symmetric2";
     window_type_arg := AStr "none"; open_begin_arg := ABool false;
     open_end_arg := ABool false; variable_to_align_arg := ANone |}.

(** [AlignerDTW.__init__] run on an instance of class [self_cls]: its
    first statement is [super(AlignerDTWdist, self).__init__()]. *)
Definition AlignerDTW___init__ (a : AlignerDTW_args) (self_cls : cls) : O unit :=
  let* _ := py_super AlignerDTWdist self_cls in
  let* _ := BaseAligner___init__ in
  let* _ := setattr "dist_method" (dist_method_arg a) in
  let* _ := setattr "step_pattern" (step_pattern_arg a) in
  let* _ := setattr "window_type" (window_type_arg a) in
  let* _ := setattr "open_begin" (open_begin_arg a) in
  let* _ := setattr "open_end" (open_end_arg a) in
  setattr "variable_to_align" (variable_to_align_arg a).

(** [AlignerDTW(...)] with the given keyword arguments *)
Definition AlignerDTW_new (a : AlignerDTW_args) : result instance :=
  construct AlignerDTW (AlignerDTW___init__ a).

(** *** AlignerDTWdist *)

Record AlignerDTWdist_args := {
  dist_trafo_arg : attr;
  dstep_pattern_arg : attr;
  dwindow_type_arg : attr;
  dopen_begin_arg : attr;
  dopen_end_arg : attr
}.

Definition AlignerDTWdist_defaults : AlignerDTWdist_args :=
  {| dist_trafo_arg := ANone; dstep_pattern_arg := AStr "symmetric2";
     dwindow_type_arg := AStr "none"; dopen_begin_arg := ABool false;
     dopen_end_arg := ABool false |}.

Definition no_trafo_error : exc := ValueError "No component dist_trafo provided".

(** [AlignerDTWdist.__init__] *)
Definition AlignerDTWdist___init__ (a : AlignerDTWdist_args) (self_cls : cls) : O unit :=
  let* _ := py_super AlignerDTWdist self_cls in
  let* _ := BaseAligner___init__ in
  let* _ := match dist_trafo_arg a with
            | ANone => oraise no_trafo_error
            | t => setattr "dist_trafo" t
            end in
  let* _ := setattr "step_pattern" (dstep_pattern_arg a) in
  let* _ := setattr "window_type" (dwindow_type_arg a) in
  let* _ := setattr "open_begin" (dopen_begin_arg a) in
  setattr "open_end" (dopen_end_arg a).

(** [AlignerDTWdist(...)] with the given keyword arguments *)
Definition AlignerDTWdist_new (a : AlignerDTWdist_args) : result instance :=
  construct AlignerDTWdist (AlignerDTWdist___init__ a).

(** *** Fitting and post-fit queries *)

Definition np_zeros_2x2 : list (list float) := [[0%float; 0%float]; [0%float; 0%float]].

(** [distmat[i, j] = v] *)
Definition setitem2 (m : list (list float)) (i j : nat) (v : float) : list (list float) :=
  <[i := <[j := v]> (default [] (m !! i))]> m.

(** [self.alignment], as an alignment object. *)
Definition get_alignment_obj (field : string) : O alignment :=
  let* al := getattr "alignment" in
  match al with
  | AAlign a => oret a
  | _ => oraise (AttributeError field)
  end.

(** The three queries, identical in both classes. *)
Definition AlignerDTW_get_alignment : O (list (string * list Z)) :=
  let* a := get_alignment_obj "index1" in
  oret [("ind0", index1 a); ("ind1", index2 a)].

Definition AlignerDTW_get_distance : O float :=
  let* a := get_alignment_obj "distance" in oret (distance a).

Definition AlignerDTW_get_distance_matrix : O (list (list float)) :=
  let distmat := np_zeros_2x2 in
  let* a := get_alignment_obj "distance" in
  let distmat := setitem2 distmat 0 1 (distance a) in
  let* a := get_alignment_obj "distance" in
  let distmat := setitem2 distmat 1 0 (distance a) in
  oret distmat.

Definition AlignerDTWdist_get_alignment : O (list (string * list Z)) :=
  let* a := get_alignment_obj "index1" in
  oret [("ind0", index1 a); ("ind1", index2 a)].

Definition AlignerDTWdist_get_distance : O float :=
  let* a := get_alignment_obj "distance" in oret (distance a).

Definition AlignerDTWdist_get_distance_matrix : O (list (list float)) :=
  let distmat := np_zeros_2x2 in
  let* a := get_alignment_obj "distance" in
  let distmat := setitem2 distmat 0 1 (distance a) in
  let* a := get_alignment_obj "distance" in
  let distmat := setitem2 distmat 1 0 (distance a) in
  oret distmat.

Section Engine.

(** The external [dtw.dtw] function, and the call of a supplied
    pairwise transformer object on two sequences. *)
Variable dtw : dtw_call -> result alignment.
Variable call_obj : nat -> frame -> frame -> result (list (list float)).

Definition call_attr (f : attr) (X1 X2 : frame) : result (list (list float)) :=
  match f with
  | AObj id => call_obj id X1 X2
  | ANone => Exc (TypeError "'NoneType' object is not callable")
  | _ => Exc (TypeError "object is not callable")
  end.

Definition missing_variable_error (which : string) (v : attr) : exc :=
  ValueError (which +:+ " does not have variable " +:+ py_str_attr v
              +:+ " used for alignment").

(** [AlignerDTW._fit] *)
Definition AlignerDTW__fit (X : list frame) : O unit :=
  let* dist_method := getattr "dist_method" in
  let* step_pattern := getattr "step_pattern" in
  let* window_type := getattr "window_type" in
  let* open_begin := getattr "open_begin" in
  let* open_end := getattr "open_end" in
  let* X1 := olift (list_index X 0) in
  let* X2 := olift (list_index X 1) in
  let* var0 := getattr "variable_to_align" in
  let* var_to_align :=
    match var0 with
    | ANone =>
        match frame_columns X1 with
        | c :: _ => oret (AStr c)
        | [] => oraise (IndexError "index 0 is out of bounds for axis 0 with size 0")
        end
    | v => oret v
    end in
  let* _ := if in_columns var_to_align (frame_columns X1) then oret tt
            else oraise (missing_variable_error "X[0]" var_to_align) in
  let* _ := if in_columns var_to_align (frame_columns X2) then oret tt
            else oraise (missing_variable_error "X[1]" var_to_align) in
  let* X1vec := olift (attr_column X1 var_to_align) in
  let* X2vec := olift (attr_column X2 var_to_align) in
  let* alignment := olift (dtw (DtwVectors X1vec X2vec dist_method step_pattern
                                 window_type open_begin open_end)) in
  let* _ := setattr "alignment" (AAlign alignment) in
  let* _ := setattr "X" (AFrames X) in
  setattr "variable_to_align" var_to_align.

(** [AlignerDTWdist._fit] *)
Definition AlignerDTWdist__fit (X : list frame) : O unit :=
  let* dist_trafo := getattr "dist_trafo" in
  let* step_pattern := getattr "step_pattern" in
  let* window_type := getattr "window_type" in
  let* open_begin := getattr "open_begin" in
  let* open_end := getattr "open_end" in
  let* X1 := olift (list_index X 0) in
  let* X2 := olift (list_index X 1) in
  let* distmat := olift (call_attr dist_trafo X1 X2) in
  let* alignment := olift (dtw (DtwMatrix distmat step_pattern window_type
                                 open_begin open_end)) in
  let* _ := setattr "alignment" (AAlign alignment) in
  setattr "X" (AFrames X).

End Engine.

End Aligners.

(* ------------------------------------------------------------------ *)
(** ** The validation order as the spec lists it (spec 4.4) *)

Module ValidationOrder.
Import Collator.

(** Keep only whether a check passed. *)
Definition passed {A} (r : result A) : result unit := r ;;; Ok tt.

(** The six checks in the spec's order: URL domain, classifiers,
    problems, metric, resamples range, toolkit. *)
Definition validation_steps (ca : class_attrs) (c : collator) : list (result unit) :=
  [ check_domain (urls c);
    passed (_check_valid_parameters (classifiers c) (VALID_CLASSIFIERS ca) "classifier");
    passed (_check_valid_parameters (problem_list c) (VALID_PROBLEMS ca) "problem");
    passed (_check_valid_parameters (metric c) VALID_METRICS "metric");
    check_resamples c;
    passed (_check_valid_parameters (toolkit c) VALID_TOOLKITS "toolkit") ].

(** Fail fast: the exception of the first check that fails. *)
Fixpoint first_error (rs : list (result unit)) : option exc :=
  match rs with
  | [] => None
  | Ok _ :: rest => first_error rest
  | Exc e :: _ => Some e
  end.

End ValidationOrder.

(* ------------------------------------------------------------------ *)
(** ** Concrete inputs and evaluation tests *)

Module Samples.
Import Collator.

(** A network where both enumeration endpoints answer and every result
    endpoint returns a two-row CSV text. *)
Definition net0 : net := {|
  get_json := fun u =>
    if String.eqb u CLASSIFIERS_REQUEST_URL then
      Some [ {[ "Acronym" := "ROCKET"; "Name" := "Rocket" ]} : record;
             {[ "Acronym" := "BOSS" ]} ]
    else if String.eqb u PROBLEM_REQUEST_URL then
      Some [ {[ "Dataset" := "GunPoint" ]} : record; {[ "Dataset" := "Coffee" ]} ]
    else None;
  get_text := fun _ => Some ("ROCKET,0.9" +:+ String (ascii_of_nat 10) "BOSS,0.8")
|}.

Definition import0 : result class_attrs * world := define_class net0 empty_world.
Definition ca0 : class_attrs :=
  match fst import0 with
  | Ok ca => ca
  | Exc _ => {| VALID_CLASSIFIERS := []; VALID_PROBLEMS := [] |}
  end.
Definition w0 : world := snd import0.

Definition good_url : string := VALID_DOMAIN +:+ "/results/accuracy/TESTFOLDS.csv".
Definition bad_url : string := "http://example.com/results.csv".

(** An engine that answers every call with one fixed warping path, and a
    transformer object that answers with a 1x1 distance matrix. *)
Definition dtw0 (_ : Aligners.dtw_call) : result Aligners.alignment :=
  Ok {| Aligners.index1 := [0%Z; 1%Z]; Aligners.index2 := [0%Z; 0%Z];
        Aligners.distance := 2.5%float |}.
Definition call0 (_ : nat) (_ _ : Aligners.frame) : result (list (list float)) :=
  Ok [[1.5%float]].

(** An aligner [__dict__] carrying the fields of both classes. *)
Definition dict0 : Aligners.dict :=
  {[ "dist_method" := Aligners.AStr "euclidean";
     "step_pattern" := Aligners.AStr "symmetric2";
     "window_type" := Aligners.AStr "none";
     "open_begin" := Aligners.ABool false;
     "open_end" := Aligners.ABool false;
     "variable_to_align" := Aligners.AStr "a";
     "dist_trafo" := Aligners.AObj 3 ]}.

Definition seqA : Aligners.frame := [("a", [1%float; 2%float]); ("b", [0%float; 0%float])].
Definition seqB : Aligners.frame := [("b", [5%float]); ("a", [3%float])].
Definition seqC : Aligners.frame := [("b", [5%float])].

End Samples.

Example py_str_int_0 : py_str_int 0 = "0". Proof. reflexivity. Qed.
Example py_str_int_31 : py_str_int 31 = "31". Proof. reflexivity. Qed.
Example py_str_int_neg : py_str_int (-120) = "-120". Proof. reflexivity. Qed.
Example py_list_str_ab : py_list_str ["a"; "b"] = "['a', 'b']".
Proof. reflexivity. Qed.
Example str_contains_ex :
  str_contains "timeseries" "https://timeseriesclassification.com" = true.
Proof. reflexivity. Qed.
Example import0_attrs :
  Samples.ca0 = {| Collator.VALID_CLASSIFIERS := ["ROCKET"; "BOSS"];
                   Collator.VALID_PROBLEMS := ["GunPoint"; "Coffee"] |}.
Proof. reflexivity. Qed.
Example import0_log :
  Collator.log Samples.w0 =
    [Collator.Fetch Collator.CLASSIFIERS_REQUEST_URL; Collator.Fetch Collator.PROBLEM_REQUEST_URL].
Proof. reflexivity. Qed.
Example get_results_good :
  Collator.program_run Samples.net0 (Collator.new_collator_default [Samples.good_url])
  = (Ok [[["ROCKET"; "0.9"]; ["BOSS"; "0.8"]]],
     [Collator.Fetch Collator.CLASSIFIERS_REQUEST_URL;
      Collator.Fetch Collator.PROBLEM_REQUEST_URL; Collator.Fetch Samples.good_url]).
Proof. reflexivity. Qed.
Example check_wildcard :
  Collator._check_valid_parameters (Collator.PStr "*") ["a"; "b"; "c"] "x"
  = Ok (Collator.PList [Some "a"; Some "b"; Some "c"]).
Proof. reflexivity. Qed.
Example check_bad_value :
  Collator._check_valid_parameters (Collator.PStr "z") ["a"; "b"] "x"
  = Exc (TypeError "The parameter x of value z is invalid. Please use a value from ['a', 'b']").
Proof. reflexivity. Qed.
Example aligner_dtw_defaults :
  Aligners.AlignerDTW_new Aligners.AlignerDTW_defaults = Exc Aligners.super_error.
Proof. reflexivity. Qed.

(* ------------------------------------------------------------------ *)
(** ** Properties *)

Module CollatorFacts.
Import Collator Samples.

(** Helper: appending a fixed prefix/suffix around a string keeps it a substring. *)
Lemma is_prefix_app (a b : string) : is_prefix a (a +:+ b) = true.
Proof.
  induction a as [|c a IH]; simpl; [reflexivity|].
  rewrite Ascii.eqb_refl. exact IH.
Qed.

Lemma str_contains_prefix (x h : string) : is_prefix x h = true -> str_contains x h = true.
Proof. intros H. destruct h; simpl; rewrite H; reflexivity. Qed.

Lemma append_assoc (a b c : string) : (a +:+ b) +:+ c = a +:+ b +:+ c.
Proof.
  induction a as [|ch a IH]; [reflexivity|].
  cbv [String.append]; fold String.append. f_equal. exact IH.
Qed.

Lemma str_contains_app (x a b : string) : str_contains x (a +:+ x +:+ b) = true.
Proof.
  induction a as [|c a IH].
  - change (str_contains x (x +:+ b) = true). apply str_contains_prefix, is_prefix_app.
  - simpl. rewrite IH. apply orb_true_r.
Qed.

Lemma append_nil_r (a : string) : a +:+ EmptyString = a.
Proof.
  induction a as [|ch a IH]; [reflexivity|].
  cbv [String.append]; fold String.append. f_equal. exact IH.
Qed.

Lemma str_contains_suffix (x a : string) : str_contains x (a +:+ x) = true.
Proof.
  rewrite <- (append_nil_r x) at 2. apply str_contains_app.
Qed.

(** The parts of the [_check_valid_parameters] contract the code keeps:
    the wildcard, a [None] list element, an unknown value, all-valid
    inputs. *)
Lemma check_valid_parameters_contract (vs : list string) (n : string) :
  _check_valid_parameters (PStr "*") vs n = Ok (PList (map Some vs)) /\
  (forall xs1 xs2, Forall (fun o => exists v, o = Some v /\ list_contains v vs = true) xs1 ->
     _check_valid_parameters (PList (xs1 ++ None :: xs2)) vs n
     = Exc (TypeError ("The parameter " +:+ n +:+ " cannot be None"))) /\
  (forall v, v <> "*" -> list_contains v vs = false ->
     exists m, _check_valid_parameters (PStr v) vs n = Exc (TypeError m) /\
       str_contains v m = true /\ str_contains (py_list_str vs) m = true) /\
  (forall v, v <> "*" -> list_contains v vs = true ->
     _check_valid_parameters (PStr v) vs n = Ok (PStr v)) /\
  (forall xs, Forall (fun o => exists v, o = Some v /\ list_contains v vs = true) xs ->
     _check_valid_parameters (PList xs) vs n = Ok (PList xs)).
Proof.
  assert (Hall : forall xs, Forall (fun o => exists v, o = Some v /\ list_contains v vs = true) xs ->
            check_all n vs xs = Ok tt).
  { induction 1 as [|o xs [v [-> Hv]] _ IH]; simpl; [reflexivity|].
    rewrite Hv. exact IH. }
  split; [reflexivity|]. split; [|split; [|split]].
  - intros xs1 xs2 H.
    assert (check_all n vs (xs1 ++ None :: xs2)
            = Exc (TypeError ("The parameter " +:+ n +:+ " cannot be None"))) as E.
    { induction H as [|o xs [v [-> Hv]] _ IH]; simpl; [reflexivity|].
      rewrite Hv. exact IH. }
    simpl. rewrite E. reflexivity.
  - intros v Hstar Hv. simpl.
    destruct (String.eqb_spec v "*"); [contradiction|]. rewrite Hv.
    eexists. split; [reflexivity|]. split.
    + rewrite <- (append_assoc n " of value "),
        <- (append_assoc "The parameter " (n +:+ " of value ")).
      apply str_contains_app.
    + rewrite <- (append_assoc v), <- (append_assoc " of value "), <- (append_assoc n),
        <- (append_assoc "The parameter ").
      apply str_contains_suffix.
  - intros v Hstar Hv. simpl.
    destruct (String.eqb_spec v "*"); [contradiction|]. rewrite Hv. reflexivity.
  - intros xs H. simpl. rewrite (Hall xs H). reflexivity.
Qed.

(** C6 (code_bug): a single [None] passed as [check_values] is not a str,
    so it goes to the [for val in check_values] branch: iterating [None]
    raises Python's own [TypeError], whose message does not mention the
    parameter name; the [value is None] test of [check] is never
    reached for it. *)
Theorem check_valid_parameters_single_None :
  _check_valid_parameters PNone ["a"] "x"
    = Exc (TypeError "'NoneType' object is not iterable") /\
  str_contains "x" "'NoneType' object is not iterable" = false.
Proof. split; reflexivity. Qed.

(** C4 (code_bug): with a trusted URL, the wildcard classifiers and
    problems, a valid metric and [resamples = 0], [get_results] raises the
    range error before any result fetch, but its message interpolates
    [self.metric] ("accuracy") where the resamples value belongs. *)
Theorem get_results_resamples_0_message (ca : class_attrs) (n : net) (w : world) :
  let c := new_collator [good_url] (PStr "*") (PStr "*") (PStr "accuracy") 0 (PStr "sktime") in
  let m := "The number of resamples accuracy is invalid. The number of resamples must be between 1 and 30" in
  fst (get_results ca n {| self := c; wld := w |}) = Exc (TypeError m) /\
  wld (snd (get_results ca n {| self := c; wld := w |})) = w /\
  str_contains ("resamples " +:+ py_str_int 0 +:+ " is invalid") m = false.
Proof. split; [reflexivity|]. split; reflexivity. Qed.

(** C3 (counterexample): the whole process run with a collator whose only
    URL is untrusted.  The two enumeration fetches are in the log before
    [get_results] is ever called: they run when the class body is executed
    at import, not lazily during validation. *)
Lemma program_run_bad_url_fetches_first :
  program_run net0 (new_collator_default [bad_url])
  = (Exc (url_error bad_url),
     [Fetch CLASSIFIERS_REQUEST_URL; Fetch PROBLEM_REQUEST_URL]).
Proof. reflexivity. Qed.

(** Helper: a cache miss of [get_enum_from_url] logs exactly one fetch. *)
Lemma get_enum_from_url_miss_log (n : net) (u k : string) (w : world) :
  cache w !! (u, k) = None ->
  log (snd (get_enum_from_url n u k w)) = (log w ++ [Fetch u])%list.
Proof.
  intros H. unfold get_enum_from_url, get_enum_from_url_body. rewrite H.
  destruct (get_json n u) as [rs|]; simpl; [|reflexivity].
  destruct (collect_key k rs); reflexivity.
Qed.

(** Helper: [get_enum_from_url] only ever adds its own key to the cache. *)
Lemma get_enum_from_url_cache_other (n : net) (u k : string) (w : world) p :
  p <> (u, k) ->
  cache (snd (get_enum_from_url n u k w)) !! p = cache w !! p.
Proof.
  intros Hp. unfold get_enum_from_url, get_enum_from_url_body.
  destruct (cache w !! (u, k)); [reflexivity|].
  destruct (get_json n u) as [rs|]; simpl; [|reflexivity].
  destruct (collect_key k rs); simpl; [|reflexivity].
  rewrite lookup_insert_ne; [reflexivity|congruence].
Qed.

(** C3 (amended): executing the class body fetches the classifier
    enumeration and then the problem enumeration, once each; afterwards
    [get_results] on a collator whose only URL lacks the trusted domain
    raises the invalid-source error naming that URL, leaving the process
    state (cache, traffic) and the instance untouched. *)
Theorem get_results_untrusted_url (n : net) (ca : class_attrs) (w : world)
    (c : collator) (u : string) :
  define_class n empty_world = (Ok ca, w) ->
  urls c = [u] ->
  str_contains VALID_DOMAIN u = false ->
  log w = [Fetch CLASSIFIERS_REQUEST_URL; Fetch PROBLEM_REQUEST_URL] /\
  get_results ca n {| self := c; wld := w |} = (Exc (url_error u), {| self := c; wld := w |}).
Proof.
  intros Hdef Hurls Hbad. split.
  - unfold define_class in Hdef.
    pose proof (get_enum_from_url_miss_log n CLASSIFIERS_REQUEST_URL "Acronym" empty_world
                  eq_refl) as L1.
    pose proof (get_enum_from_url_cache_other n CLASSIFIERS_REQUEST_URL "Acronym" empty_world
                  (PROBLEM_REQUEST_URL, "Dataset")) as C1.
    destruct (get_enum_from_url n CLASSIFIERS_REQUEST_URL "Acronym" empty_world)
      as [r1 w1] eqn:E1.
    destruct r1 as [cls|e]; [|discriminate].
    simpl in L1, C1.
    pose proof (get_enum_from_url_miss_log n PROBLEM_REQUEST_URL "Dataset" w1) as L2.
    destruct (get_enum_from_url n PROBLEM_REQUEST_URL "Dataset" w1) as [r2 w2] eqn:E2.
    destruct r2 as [probs|e]; [|discriminate].
    injection Hdef as _ <-. simpl in L2. rewrite L2, L1; [reflexivity|].
    rewrite C1; [reflexivity|]. intros [=].
  - unfold get_results, mbind, get_self, lift. simpl. rewrite Hurls. simpl.
    rewrite Hbad. reflexivity.
Qed.

(** A run of [get_results_untrusted_url] on the sample network. *)
Lemma get_results_untrusted_url_witness :
  define_class net0 empty_world = (Ok ca0, w0) /\
  log w0 = [Fetch CLASSIFIERS_REQUEST_URL; Fetch PROBLEM_REQUEST_URL] /\
  get_results ca0 net0 {| self := new_collator_default [bad_url]; wld := w0 |}
    = (Exc (url_error bad_url), {| self := new_collator_default [bad_url]; wld := w0 |}).
Proof.
  assert (H : define_class net0 empty_world = (Ok ca0, w0)) by reflexivity.
  split; [exact H|].
  apply (get_results_untrusted_url net0 ca0 w0 (new_collator_default [bad_url]) bad_url H);
    reflexivity.
Defined.

(** Helper: the spec-modelled result fetching leaves the cache alone and
    fetches a prefix of the URLs in order, all of them when it returns. *)
Lemma fetch_all_log (n : net) (us : list string) (w : world) :
  cache (snd (fetch_all n us w)) = cache w /\
  (exists k, log (snd (fetch_all n us w)) = (log w ++ map Fetch (take k us))%list) /\
  (forall v, fst (fetch_all n us w) = Ok v ->
     log (snd (fetch_all n us w)) = (log w ++ map Fetch us)%list).
Proof.
  revert w. induction us as [|url rest IH]; intros w; simpl.
  - split; [reflexivity|]. split.
    + exists 0. simpl. rewrite app_nil_r. reflexivity.
    + intros _ _. rewrite app_nil_r. reflexivity.
  - destruct (get_text n url) as [response|]; simpl.
    + specialize (IH {| cache := cache w; log := (log w ++ [Fetch url])%list |}).
      destruct (fetch_all n rest _) as [r2 w2]; simpl in *.
      destruct IH as [Hc [[k Hk] Hok]].
      destruct r2 as [tables|e]; simpl; (split; [exact Hc|]); split.
      * exists (S k). simpl. rewrite Hk, <- app_assoc. reflexivity.
      * intros v _. rewrite (Hok tables eq_refl), <- app_assoc. reflexivity.
      * exists (S k). simpl. rewrite Hk, <- app_assoc. reflexivity.
      * intros v [=].
    + split; [reflexivity|]. split.
      * exists 1. simpl. reflexivity.
      * intros v [=].
Qed.

(** C5: [get_results] runs the checks in the spec's order and fails fast:
    when some check fails, the call raises exactly the exception of the
    first failing one, and the process state (cache and traffic) is
    untouched; only when all pass does it fetch, one URL after the other,
    every configured URL when it returns normally. *)
Theorem get_results_validation_order (ca : class_attrs) (n : net) (c : collator) (w : world) :
  let out := get_results ca n {| self := c; wld := w |} in
  match ValidationOrder.first_error (ValidationOrder.validation_steps ca c) with
  | Some e => fst out = Exc e /\ wld (snd out) = w
  | None =>
      cache (wld (snd out)) = cache w /\
      (exists k, log (wld (snd out)) = (log w ++ map Fetch (take k (urls c)))%list) /\
      (forall v, fst out = Ok v -> log (wld (snd out)) = (log w ++ map Fetch (urls c))%list)
  end.
Proof.
  unfold get_results, ValidationOrder.validation_steps, ValidationOrder.passed,
    ResultCollator_get_results, mbind, get_self, put_self, lift, on_world; simpl.
  destruct (check_domain (urls c)) as [[]|e]; simpl; [|split; reflexivity].
  destruct (_check_valid_parameters (classifiers c) _ _) as [v1|e]; simpl;
    [|split; reflexivity].
  destruct (_check_valid_parameters (problem_list c) _ _) as [v2|e]; simpl;
    [|split; reflexivity].
  destruct (_check_valid_parameters (metric c) _ _) as [v3|e]; simpl;
    [|split; reflexivity].
  change (check_resamples (set_problem_list (set_classifiers c v1) v2))
    with (check_resamples c).
  destruct (check_resamples c) as [[]|e]; simpl; [|split; reflexivity].
  destruct (_check_valid_parameters (toolkit c) _ _) as [v4|e]; simpl;
    [|split; reflexivity].
  pose proof (fetch_all_log n (urls c) w) as [Hc [Hk Hok]].
  destruct (fetch_all n (urls c) w) as [r w'] eqn:E. simpl in *.
  split; [exact Hc|]. split; [exact Hk|]. exact Hok.
Qed.

(** Helper: [collect_key] returns the values under [key], in order,
    exactly when every record has the key. *)
Lemma collect_key_ok (key : string) (rs : list record) (vs : list string) :
  collect_key key rs = Ok vs <-> map (fun r => r !! key) rs = map Some vs.
Proof.
  revert vs. induction rs as [|r rs IH]; intros vs; simpl.
  - destruct vs; simpl; split; congruence.
  - destruct (r !! key) as [v|] eqn:Hr.
    + destruct vs as [|v0 vs]; simpl.
      * split; [|discriminate]. destruct (collect_key key rs); discriminate.
      * destruct (collect_key key rs) as [vs'|e] eqn:Hc; simpl.
        -- split.
           ++ intros [= <- <-]. f_equal. apply IH. reflexivity.
           ++ intros [= <- Hm]. apply IH in Hm. congruence.
        -- split; [discriminate|]. intros [= _ Hm]. apply IH in Hm. congruence.
    + split; [discriminate|]. destruct vs; simpl; discriminate.
Qed.

(** Helper: a stored entry is returned by every later lookup of its
    pair, with no fetch. *)
Lemma get_enum_from_url_hit (n : net) (u k : string) (w : world) (vs : list string) :
  cache w !! (u, k) = Some vs -> get_enum_from_url n u k w = (Ok vs, w).
Proof. intros H. unfold get_enum_from_url. rewrite H. reflexivity. Qed.

(** Helper: no lookup ever drops or changes a stored entry. *)
Lemma get_enum_from_url_keeps (n : net) (u k : string) (w : world) p vs :
  cache w !! p = Some vs -> cache (snd (get_enum_from_url n u k w)) !! p = Some vs.
Proof.
  intros H. destruct (decide (p = (u, k))) as [->|Hne].
  - rewrite get_enum_from_url_hit with (vs := vs) by exact H. exact H.
  - rewrite get_enum_from_url_cache_other by exact Hne. exact H.
Qed.

(** C7: the [lru_cache]d enumeration lookup.  On a cache miss for
    [(url, key)] it fetches [url] exactly once and returns the value under
    [key] of every record, in order; a successful result is stored and
    kept by every later lookup, and every later lookup of the same pair
    returns it without a fetch; a lookup of another key on the same URL
    fetches again; a failed lookup stores nothing, so a retry fetches
    again. *)
Theorem get_enum_from_url_memo (n : net) (u k : string) (w : world) :
  cache w !! (u, k) = None ->
  let r := get_enum_from_url n u k w in
  log (snd r) = (log w ++ [Fetch u])%list /\
  (forall vs, fst r = Ok vs <->
     exists rs, get_json n u = Some rs /\ map (fun rc => rc !! k) rs = map Some vs) /\
  (forall vs, fst r = Ok vs ->
     cache (snd r) !! (u, k) = Some vs /\
     (forall n' u' k' w', cache w' !! (u, k) = Some vs ->
        cache (snd (get_enum_from_url n' u' k' w')) !! (u, k) = Some vs) /\
     (forall n' w', cache w' !! (u, k) = Some vs ->
        get_enum_from_url n' u k w' = (Ok vs, w'))) /\
  (forall n' k', k' <> k -> cache w !! (u, k') = None ->
     log (snd (get_enum_from_url n' u k' (snd r))) = (log (snd r) ++ [Fetch u])%list) /\
  (forall e, fst r = Exc e ->
     cache (snd r) = cache w /\
     (forall n', log (snd (get_enum_from_url n' u k (snd r))) = (log (snd r) ++ [Fetch u])%list)).
Proof.
  intros Hmiss r.
  assert (Hshape : match get_json n u with
                   | Some rs =>
                       match collect_key k rs with
                       | Ok vs => r = (Ok vs, {| cache := <[(u, k) := vs]> (cache w);
                                                 log := (log w ++ [Fetch u])%list |})
                       | Exc e => r = (Exc e, {| cache := cache w; log := (log w ++ [Fetch u])%list |})
                       end
                   | None => r = (Exc (FetchError u), {| cache := cache w; log := (log w ++ [Fetch u])%list |})
                   end).
  { subst r. unfold get_enum_from_url, get_enum_from_url_body. rewrite Hmiss.
    destruct (get_json n u) as [rs|]; [|reflexivity].
    destruct (collect_key k rs); reflexivity. }
  split; [apply get_enum_from_url_miss_log, Hmiss|].
  split; [|split; [|split]].
  - intros vs. destruct (get_json n u) as [rs|] eqn:Hj.
    + split.
      * intros Hok. exists rs. split; [reflexivity|]. apply collect_key_ok.
        destruct (collect_key k rs); rewrite Hshape in Hok; simpl in Hok; congruence.
      * intros [rs' [[= <-] Hm]]. apply collect_key_ok in Hm.
        rewrite Hm in Hshape. rewrite Hshape. reflexivity.
    + rewrite Hshape. simpl. split; [discriminate|]. intros [rs' [[=] _]].
  - intros vs Hok. split; [|split].
    + destruct (get_json n u) as [rs|]; [|rewrite Hshape in Hok; discriminate].
      destruct (collect_key k rs); rewrite Hshape in Hok |- *; simpl in *;
        [|discriminate].
      injection Hok as <-. apply lookup_insert_eq.
    + intros n' u' k' w'. apply get_enum_from_url_keeps.
    + intros n' w'. apply get_enum_from_url_hit.
  - intros n' k' Hk' Hmiss'. apply get_enum_from_url_miss_log.
    subst r. rewrite get_enum_from_url_cache_other; [exact Hmiss'|congruence].
  - intros e Hexc.
    assert (Hc : cache (snd r) = cache w).
    { destruct (get_json n u) as [rs|]; [|rewrite Hshape; reflexivity].
      destruct (collect_key k rs); rewrite Hshape in Hexc |- *; simpl in *;
        [discriminate|reflexivity]. }
    split; [exact Hc|]. intros n'. apply get_enum_from_url_miss_log.
    rewrite Hc. exact Hmiss.
Qed.

(** A first lookup of the classifier enumeration from an empty cache. *)
Lemma get_enum_from_url_memo_witness :
  cache empty_world !! (CLASSIFIERS_REQUEST_URL, "Acronym") = None /\
  log (snd (get_enum_from_url net0 CLASSIFIERS_REQUEST_URL "Acronym" empty_world))
    = [Fetch CLASSIFIERS_REQUEST_URL].
Proof.
  split; [reflexivity|].
  apply (get_enum_from_url_memo net0 CLASSIFIERS_REQUEST_URL "Acronym" empty_world).
  reflexivity.
Defined.

End CollatorFacts.

Module AlignerFacts.
Import Aligners.

(** C2: whatever the arguments, [AlignerDTW.__init__] on an [AlignerDTW]
    instance raises at its first statement: the instance is not an
    [AlignerDTWdist], so [super(AlignerDTWdist, self)] raises [TypeError].
    No attribute is written, and calling the class never yields an
    instance, so no [_fit] or post-fit query can be reached on one. *)
Theorem AlignerDTW_init_always_raises (a : AlignerDTW_args) (d : dict) :
  isinstance AlignerDTW AlignerDTWdist = false /\
  AlignerDTW___init__ a AlignerDTW d = (Exc super_error, d) /\
  AlignerDTW_new a = Exc super_error.
Proof. split; [reflexivity|]. split; reflexivity. Qed.

(** C1 (code_bug): [AlignerDTW()] with the default configuration raises
    [TypeError] from the [super] call, so no fit, alignment table or
    distance is ever produced. *)
Theorem AlignerDTW_default_construction_fails :
  AlignerDTW_new AlignerDTW_defaults
  = Exc (TypeError "super(type, obj): obj must be an instance or subtype of type").
Proof. reflexivity. Qed.

(** C9: [AlignerDTWdist] raises [ValueError] at construction when
    [dist_trafo] is [None] (its default), and otherwise builds an instance
    that stores the supplied component. *)
Theorem AlignerDTWdist_new_dist_trafo (a : AlignerDTWdist_args) :
  (dist_trafo_arg a = ANone -> AlignerDTWdist_new a = Exc no_trafo_error) /\
  (dist_trafo_arg a <> ANone ->
     exists i, AlignerDTWdist_new a = Ok i /\ inst_cls i = AlignerDTWdist /\
               inst_dict i !! "dist_trafo" = Some (dist_trafo_arg a)).
Proof.
  destruct a as [t sp wt ob oe]; simpl.
  split; intros Ht.
  - subst t. reflexivity.
  - destruct t; try (exfalso; apply Ht; reflexivity);
      eexists; (split; [reflexivity|]); split; reflexivity.
Qed.

(** [AlignerDTWdist()] with its defaults, and with a component. *)
Lemma AlignerDTWdist_new_dist_trafo_witness :
  AlignerDTWdist_new AlignerDTWdist_defaults = Exc no_trafo_error /\
  exists i, AlignerDTWdist_new {| dist_trafo_arg := AObj 7; dstep_pattern_arg := AStr "symmetric2";
                                  dwindow_type_arg := AStr "none"; dopen_begin_arg := ABool false;
                                  dopen_end_arg := ABool false |} = Ok i /\
            inst_cls i = AlignerDTWdist /\ inst_dict i !! "dist_trafo" = Some (AObj 7).
Proof.
  split.
  - apply (AlignerDTWdist_new_dist_trafo AlignerDTWdist_defaults). reflexivity.
  - apply (AlignerDTWdist_new_dist_trafo {| dist_trafo_arg := AObj 7;
      dstep_pattern_arg := AStr "symmetric2"; dwindow_type_arg := AStr "none";
      dopen_begin_arg := ABool false; dopen_end_arg := ABool false |}).
    discriminate.
Defined.

(** Helper: with an alignment stored, both classes' queries read its
    distance into [get_distance] and both off-diagonal cells of the
    2x2 matrix, leaving the diagonal at zero. *)
Lemma distance_queries_stored (d : dict) (a : alignment) :
  d !! "alignment" = Some (AAlign a) ->
  AlignerDTW_get_distance d = (Ok (distance a), d) /\
  AlignerDTW_get_distance_matrix d = (Ok [[0%float; distance a]; [distance a; 0%float]], d) /\
  AlignerDTWdist_get_distance d = (Ok (distance a), d) /\
  AlignerDTWdist_get_distance_matrix d = (Ok [[0%float; distance a]; [distance a; 0%float]], d).
Proof.
  intros H.
  unfold AlignerDTW_get_distance, AlignerDTW_get_distance_matrix,
    AlignerDTWdist_get_distance, AlignerDTWdist_get_distance_matrix,
    get_alignment_obj, obind, getattr, oret.
  repeat split; simpl; rewrite H; simpl; rewrite ?H; reflexivity.
Qed.

(** Case analysis of a monadic run: destruct every scrutinee of [H]. *)
Ltac run_cases H :=
  repeat (simpl in H;
          match type of H with
          | context [match ?x with _ => _ end] =>
              let E := fresh "E" in destruct x eqn:E; try discriminate H
          end).

(** Helper: a successful [AlignerDTW._fit] stores an alignment. *)
Lemma AlignerDTW_fit_stores dtw (X : list frame) (d d' : dict) :
  AlignerDTW__fit dtw X d = (Ok tt, d') ->
  exists a, d' !! "alignment" = Some (AAlign a).
Proof.
  unfold AlignerDTW__fit, obind, getattr, olift, oret, oraise, setattr.
  intros H. run_cases H; injection H as <-; rewrite !lookup_insert; eexists; reflexivity.
Qed.

(** Helper: a successful [AlignerDTWdist._fit] stores an alignment. *)
Lemma AlignerDTWdist_fit_stores dtw call_obj (X : list frame) (d d' : dict) :
  AlignerDTWdist__fit dtw call_obj X d = (Ok tt, d') ->
  exists a, d' !! "alignment" = Some (AAlign a).
Proof.
  unfold AlignerDTWdist__fit, obind, getattr, olift, oret, oraise, setattr.
  intros H. run_cases H; injection H as <-; rewrite !lookup_insert; eexists; reflexivity.
Qed.

(** C10: after a successful fit of either class, [get_distance] returns
    the stored distance and [get_distance_matrix] returns the 2x2 matrix
    with zero diagonal and that same distance in cells [0,1] and [1,0]. *)
Theorem get_distance_matrix_after_fit dtw call_obj (X : list frame) (d d' : dict) :
  (AlignerDTW__fit dtw X d = (Ok tt, d') ->
   exists dist, AlignerDTW_get_distance d' = (Ok dist, d') /\
     AlignerDTW_get_distance_matrix d' = (Ok [[0%float; dist]; [dist; 0%float]], d')) /\
  (AlignerDTWdist__fit dtw call_obj X d = (Ok tt, d') ->
   exists dist, AlignerDTWdist_get_distance d' = (Ok dist, d') /\
     AlignerDTWdist_get_distance_matrix d' = (Ok [[0%float; dist]; [dist; 0%float]], d')).
Proof.
  split; intros H.
  - destruct (AlignerDTW_fit_stores dtw X d d' H) as [a Ha].
    destruct (distance_queries_stored d' a Ha) as (H1 & H2 & _ & _).
    exists (distance a). split; assumption.
  - destruct (AlignerDTWdist_fit_stores dtw call_obj X d d' H) as [a Ha].
    destruct (distance_queries_stored d' a Ha) as (_ & _ & H3 & H4).
    exists (distance a). split; assumption.
Qed.

(** C8: with the configuration attributes present and [variable_to_align]
    set to a column name [v], [AlignerDTW._fit] on [X = X1 :: X2 :: _]
    raises [ValueError] naming "X[0]" when [v] is not a column of [X1],
    and naming "X[1]" when it is a column of [X1] but not of [X2]; these
    results do not depend on the engine, which is not called.  A
    successful fit aligned column [v] of both sequences, and no other. *)
Theorem AlignerDTW_fit_missing_variable dtw (d : dict) (X1 X2 : frame)
    (rest : list frame) (v : string) (dm sp wt ob oe : attr) :
  d !! "dist_method" = Some dm -> d !! "step_pattern" = Some sp ->
  d !! "window_type" = Some wt -> d !! "open_begin" = Some ob ->
  d !! "open_end" = Some oe -> d !! "variable_to_align" = Some (AStr v) ->
  (list_contains v (frame_columns X1) = false ->
   AlignerDTW__fit dtw (X1 :: X2 :: rest) d
   = (Exc (missing_variable_error "X[0]" (AStr v)), d)) /\
  (list_contains v (frame_columns X1) = true ->
   list_contains v (frame_columns X2) = false ->
   AlignerDTW__fit dtw (X1 :: X2 :: rest) d
   = (Exc (missing_variable_error "X[1]" (AStr v)), d)) /\
  (forall d', AlignerDTW__fit dtw (X1 :: X2 :: rest) d = (Ok tt, d') ->
   exists x y a, frame_column X1 v = Ok x /\ frame_column X2 v = Ok y /\
     dtw (DtwVectors x y dm sp wt ob oe) = Ok a /\
     d' !! "alignment" = Some (AAlign a) /\
     d' !! "variable_to_align" = Some (AStr v)).
Proof.
  intros Hdm Hsp Hwt Hob Hoe Hv.
  unfold AlignerDTW__fit, obind, getattr, olift, oret, oraise, setattr.
  rewrite Hdm, Hsp, Hwt, Hob, Hoe, Hv. simpl.
  split; [|split].
  - intros H1. rewrite H1. reflexivity.
  - intros H1 H2. rewrite H1, H2. reflexivity.
  - intros d' H. run_cases H. injection H as <-.
    do 3 eexists. split; [reflexivity|]. split; [reflexivity|]. split; [eassumption|].
    rewrite !lookup_insert. split; reflexivity.
Qed.

End AlignerFacts.

Module AlignerWitnesses.
Import Aligners Samples.

(** Both classes fitted on the sample sequences with the sample engine. *)
Lemma get_distance_matrix_after_fit_witness :
  AlignerDTW__fit dtw0 [seqA; seqB] dict0 = (Ok tt, snd (AlignerDTW__fit dtw0 [seqA; seqB] dict0)) /\
  AlignerDTWdist__fit dtw0 call0 [seqA; seqB] dict0
    = (Ok tt, snd (AlignerDTWdist__fit dtw0 call0 [seqA; seqB] dict0)) /\
  (exists dist, AlignerDTW_get_distance (snd (AlignerDTW__fit dtw0 [seqA; seqB] dict0))
                = (Ok dist, snd (AlignerDTW__fit dtw0 [seqA; seqB] dict0))) /\
  (exists dist, AlignerDTWdist_get_distance (snd (AlignerDTWdist__fit dtw0 call0 [seqA; seqB] dict0))
                = (Ok dist, snd (AlignerDTWdist__fit dtw0 call0 [seqA; seqB] dict0))).
Proof.
  assert (H1 : AlignerDTW__fit dtw0 [seqA; seqB] dict0
               = (Ok tt, snd (AlignerDTW__fit dtw0 [seqA; seqB] dict0))) by reflexivity.
  assert (H2 : AlignerDTWdist__fit dtw0 call0 [seqA; seqB] dict0
               = (Ok tt, snd (AlignerDTWdist__fit dtw0 call0 [seqA; seqB] dict0))) by reflexivity.
  split; [exact H1|]. split; [exact H2|]. split.
  - destruct (proj1 (AlignerFacts.get_distance_matrix_after_fit dtw0 call0 [seqA; seqB] dict0 _) H1)
      as [dist [Hd _]]. exists dist. exact Hd.
  - destruct (proj2 (AlignerFacts.get_distance_matrix_after_fit dtw0 call0 [seqA; seqB] dict0 _) H2)
      as [dist [Hd _]]. exists dist. exact Hd.
Defined.

(** The sample sequences: [seqC] lacks column "a", [seqA] and [seqB]
    have it. *)
Lemma AlignerDTW_fit_missing_variable_witness :
  AlignerDTW__fit dtw0 [seqC; seqA] dict0
    = (Exc (missing_variable_error "X[0]" (AStr "a")), dict0) /\
  AlignerDTW__fit dtw0 [seqA; seqC] dict0
    = (Exc (missing_variable_error "X[1]" (AStr "a")), dict0) /\
  exists x y a, frame_column seqA "a" = Ok x /\ frame_column seqB "a" = Ok y /\
    dtw0 (DtwVectors x y (AStr "euclidean") (AStr "symmetric2") (AStr "none")
            (ABool false) (ABool false)) = Ok a /\
    snd (AlignerDTW__fit dtw0 [seqA; seqB] dict0) !! "alignment" = Some (AAlign a) /\
    snd (AlignerDTW__fit dtw0 [seqA; seqB] dict0) !! "variable_to_align" = Some (AStr "a").
Proof.
  split; [|split].
  - apply (AlignerFacts.AlignerDTW_fit_missing_variable dtw0 dict0 seqC seqA [] "a"
             (AStr "euclidean") (AStr "symmetric2") (AStr "none") (ABool false) (ABool false));
      reflexivity.
  - apply (AlignerFacts.AlignerDTW_fit_missing_variable dtw0 dict0 seqA seqC [] "a"
             (AStr "euclidean") (AStr "symmetric2") (AStr "none") (ABool false) (ABool false));
      reflexivity.
  - apply (AlignerFacts.AlignerDTW_fit_missing_variable dtw0 dict0 seqA seqB [] "a"
             (AStr "euclidean") (AStr "symmetric2") (AStr "none") (ABool false) (ABool false));
      reflexivity.
Defined.

End AlignerWitnesses.

Module CollatorExtra.
Import Collator Samples CollatorFacts.






(** X3: the domain check of [get_results] passes exactly when every URL
    contains the trusted domain; otherwise it raises the error naming
    the first URL, in list order, that lacks it. *)
Theorem check_domain_first_bad (pre : list string) (u : string) (post : list string) :
  (check_domain (pre ++ u :: post)%list = Ok tt <->
     Forall (fun x => str_contains VALID_DOMAIN x = true) (pre ++ u :: post)%list) /\
  (Forall (fun x => str_contains VALID_DOMAIN x = true) pre ->
   str_contains VALID_DOMAIN u = false ->
   check_domain (pre ++ u :: post)%list = Exc (url_error u)).
Proof.
  split.
  - generalize (pre ++ u :: post)%list as us. induction us as [|x us IH]; simpl.
    + split; [constructor|reflexivity].
    + destruct (str_contains VALID_DOMAIN x) eqn:Hx; simpl.
      * rewrite IH. split; [intros H; constructor; assumption|].
        intros H; inversion H; assumption.
      * split; [discriminate|]. intros H; inversion H; congruence.
  - intros Hpre Hu. induction Hpre as [|x pre Hx _ IH]; simpl.
    + rewrite Hu. reflexivity.
    + rewrite Hx. exact IH.
Qed.

(** Two sample URL lists: the second URL is the first untrusted one. *)
Lemma check_domain_first_bad_witness :
  Forall (fun x => str_contains VALID_DOMAIN x = true) [good_url] /\
  str_contains VALID_DOMAIN bad_url = false /\
  check_domain ([good_url] ++ bad_url :: ["ftp://other.org"])%list = Exc (url_error bad_url).
Proof.
  assert (H1 : Forall (fun x => str_contains VALID_DOMAIN x = true) [good_url])
    by (constructor; [reflexivity|constructor]).
  assert (H2 : str_contains VALID_DOMAIN bad_url = false) by reflexivity.
  split; [exact H1|]. split; [exact H2|].
  exact (proj2 (check_domain_first_bad [good_url] bad_url ["ftp://other.org"]) H1 H2).
Defined.

Import ValidationOrder.

(** Helper: when every check passes, [get_results] is the result fetching
    of the URLs, on the instance updated with the validated values. *)
Lemma get_results_pass (ca : class_attrs) (n : net) (c : collator) (w : world)
    (v1 v2 v3 v4 : param) :
  check_domain (urls c) = Ok tt ->
  _check_valid_parameters (classifiers c) (VALID_CLASSIFIERS ca) "classifier" = Ok v1 ->
  _check_valid_parameters (problem_list c) (VALID_PROBLEMS ca) "problem" = Ok v2 ->
  _check_valid_parameters (metric c) VALID_METRICS "metric" = Ok v3 ->
  check_resamples c = Ok tt ->
  _check_valid_parameters (toolkit c) VALID_TOOLKITS "toolkit" = Ok v4 ->
  get_results ca n {| self := c; wld := w |}
  = (fst (fetch_all n (urls c) w),
     {| self := set_toolkit (set_problem_list (set_classifiers c v1) v2) v4;
        wld := snd (fetch_all n (urls c) w) |}).
Proof.
  intros H0 H1 H2 H3 H4 H5.
  unfold get_results, ResultCollator_get_results, mbind, get_self, put_self, lift, on_world;
    simpl.
  rewrite H0, H1. simpl. rewrite H2. simpl. rewrite H3. simpl.
  change (check_resamples (set_problem_list (set_classifiers c v1) v2))
    with (check_resamples c).
  rewrite H4, H5. simpl.
  destruct (fetch_all n (urls c) w); reflexivity.
Qed.

(** Helper: all checks passed, with the values they return. *)
Lemma first_error_None (ca : class_attrs) (c : collator) :
  first_error (validation_steps ca c) = None ->
  check_domain (urls c) = Ok tt /\
  (exists v1, _check_valid_parameters (classifiers c) (VALID_CLASSIFIERS ca) "classifier" = Ok v1) /\
  (exists v2, _check_valid_parameters (problem_list c) (VALID_PROBLEMS ca) "problem" = Ok v2) /\
  (exists v3, _check_valid_parameters (metric c) VALID_METRICS "metric" = Ok v3) /\
  check_resamples c = Ok tt /\
  (exists v4, _check_valid_parameters (toolkit c) VALID_TOOLKITS "toolkit" = Ok v4).
Proof.
  unfold validation_steps, passed. simpl.
  destruct (check_domain (urls c)) as [[]|]; simpl; [|discriminate].
  destruct (_check_valid_parameters (classifiers c) _ _) as [v1|]; simpl; [|discriminate].
  destruct (_check_valid_parameters (problem_list c) _ _) as [v2|]; simpl; [|discriminate].
  destruct (_check_valid_parameters (metric c) _ _) as [v3|]; simpl; [|discriminate].
  destruct (check_resamples c) as [[]|]; simpl; [|discriminate].
  destruct (_check_valid_parameters (toolkit c) _ _) as [v4|]; simpl; [|discriminate].
  intros _. repeat split; eauto.
Qed.

(** Helper: a failing check leaves the process state untouched. *)
Lemma get_results_fail (ca : class_attrs) (n : net) (c : collator) (w : world) (e : exc) :
  first_error (validation_steps ca c) = Some e ->
  fst (get_results ca n {| self := c; wld := w |}) = Exc e /\
  wld (snd (get_results ca n {| self := c; wld := w |})) = w.
Proof.
  unfold get_results, validation_steps, passed, ResultCollator_get_results,
    mbind, get_self, put_self, lift, on_world; simpl.
  destruct (check_domain (urls c)) as [[]|e']; simpl; [|intros [= ->]; split; reflexivity].
  destruct (_check_valid_parameters (classifiers c) _ _) as [v1|e']; simpl;
    [|intros [= ->]; split; reflexivity].
  destruct (_check_valid_parameters (problem_list c) _ _) as [v2|e']; simpl;
    [|intros [= ->]; split; reflexivity].
  destruct (_check_valid_parameters (metric c) _ _) as [v3|e']; simpl;
    [|intros [= ->]; split; reflexivity].
  change (check_resamples (set_problem_list (set_classifiers c v1) v2))
    with (check_resamples c).
  destruct (check_resamples c) as [[]|e']; simpl; [|intros [= ->]; split; reflexivity].
  destruct (_check_valid_parameters (toolkit c) _ _) as [v4|e']; simpl;
    [discriminate|intros [= ->]; split; reflexivity].
Qed.



(** X5: the [resamples] value is only range-checked: two in-range values
    give the same outcome and the same process state. *)
Theorem get_results_resamples_unused (ca : class_attrs) (n : net) (c : collator)
    (w : world) (r : Z) :
  (1 <= resamples c <= 30)%Z -> (1 <= r <= 30)%Z ->
  fst (get_results ca n {| self := set_resamples c r; wld := w |})
    = fst (get_results ca n {| self := c; wld := w |}) /\
  wld (snd (get_results ca n {| self := set_resamples c r; wld := w |}))
    = wld (snd (get_results ca n {| self := c; wld := w |})).
Proof.
  intros Hc Hr.
  assert (Rc : check_resamples c = Ok tt).
  { unfold check_resamples. destruct (Z.ltb_spec (resamples c) 1); [lia|].
    destruct (Z.ltb_spec 30 (resamples c)); [lia|]. reflexivity. }
  assert (Rr : check_resamples (set_resamples c r) = Ok tt).
  { unfold check_resamples. simpl. destruct (Z.ltb_spec r 1); [lia|].
    destruct (Z.ltb_spec 30 r); [lia|]. reflexivity. }
  assert (Hs : validation_steps ca (set_resamples c r) = validation_steps ca c).
  { unfold validation_steps. rewrite Rr, Rc. reflexivity. }
  destruct (first_error (validation_steps ca c)) as [e|] eqn:Hf.
  - pose proof Hf as Hf'. rewrite <- Hs in Hf'.
    destruct (get_results_fail ca n c w e Hf) as [A B].
    destruct (get_results_fail ca n (set_resamples c r) w e Hf') as [A' B'].
    rewrite A, A', B, B'. split; reflexivity.
  - pose proof Hf as Hf'. rewrite <- Hs in Hf'.
    destruct (first_error_None ca c Hf) as (H0 & [v1 H1] & [v2 H2] & [v3 H3] & _ & [v4 H5]).
    rewrite (get_results_pass ca n c w v1 v2 v3 v4 H0 H1 H2 H3 Rc H5).
    rewrite (get_results_pass ca n (set_resamples c r) w v1 v2 v3 v4 H0 H1 H2 H3 Rr H5).
    split; reflexivity.
Qed.

Lemma get_results_resamples_unused_witness :
  (1 <= resamples (new_collator_default [good_url]) <= 30)%Z /\ (1 <= 30 <= 30)%Z /\
  fst (get_results ca0 net0 {| self := set_resamples (new_collator_default [good_url]) 30; wld := w0 |})
    = fst (get_results ca0 net0 {| self := new_collator_default [good_url]; wld := w0 |}).
Proof.
  assert (H1 : (1 <= resamples (new_collator_default [good_url]) <= 30)%Z) by (simpl; lia).
  assert (H2 : (1 <= 30 <= 30)%Z) by lia.
  split; [exact H1|]. split; [exact H2|].
  exact (proj1 (get_results_resamples_unused ca0 net0 (new_collator_default [good_url]) w0 30 H1 H2)).
Defined.

(** X6: [_check_valid_parameters] is idempotent: whatever value it
    returns passes the same check again and is returned unchanged. *)
Theorem check_valid_parameters_idempotent (x y : param) (vs : list string) (n : string) :
  _check_valid_parameters x vs n = Ok y -> _check_valid_parameters y vs n = Ok y.
Proof.
  destruct x as [s|xs|]; simpl.
  - destruct (String.eqb_spec s "*") as [->|Hs].
    + intros [= <-]. simpl.
      assert (Hall : forall ws, incl ws vs -> check_all n vs (map Some ws) = Ok tt).
      { induction ws as [|u ws IH]; intros Hi; simpl; [reflexivity|].
        assert (list_contains u vs = true) as ->.
        { unfold list_contains. apply existsb_exists. exists u.
          split; [apply Hi; left; reflexivity|apply String.eqb_refl]. }
        simpl. apply IH. intros z Hz. apply Hi. right. exact Hz. }
      rewrite Hall; [reflexivity|]. intros z Hz; exact Hz.
    + destruct (list_contains s vs) eqn:Hc; simpl; [|discriminate].
      intros [= <-]. simpl.
      destruct (String.eqb_spec s "*"); [contradiction|]. rewrite Hc. reflexivity.
  - destruct (check_all n vs xs) eqn:Hc; simpl; [|discriminate].
    intros [= <-]. simpl. rewrite Hc. reflexivity.
  - discriminate.
Qed.

Lemma check_valid_parameters_idempotent_witness :
  _check_valid_parameters (PStr "*") VALID_TOOLKITS "toolkit" = Ok (PList [Some "sktime"; Some "tsml"]) /\
  _check_valid_parameters (PList [Some "sktime"; Some "tsml"]) VALID_TOOLKITS "toolkit"
    = Ok (PList [Some "sktime"; Some "tsml"]).
Proof.
  assert (H : _check_valid_parameters (PStr "*") VALID_TOOLKITS "toolkit"
              = Ok (PList [Some "sktime"; Some "tsml"])) by reflexivity.
  split; [exact H|].
  exact (check_valid_parameters_idempotent _ _ VALID_TOOLKITS "toolkit" H).
Defined.

Lemma check_valid_parameters_reapply (x y : param) (vs : list string) (n : string) :
  _check_valid_parameters x vs n = Ok y -> _check_valid_parameters y vs n = Ok y.
Proof.
  destruct x as [s|xs|]; simpl.
  - destruct (String.eqb_spec s "*") as [->|Hs].
    + intros [= <-]. simpl.
      assert (Hall : forall ws, incl ws vs -> check_all n vs (map Some ws) = Ok tt).
      { induction ws as [|u ws IH]; intros Hi; simpl; [reflexivity|].
        assert (list_contains u vs = true) as ->.
        { unfold list_contains. apply existsb_exists. exists u.
          split; [apply Hi; left; reflexivity|apply String.eqb_refl]. }
        simpl. apply IH. intros z Hz. apply Hi. right. exact Hz. }
      rewrite Hall; [reflexivity|]. intros z Hz; exact Hz.
    + destruct (list_contains s vs) eqn:Hc; simpl; [|discriminate].
      intros [= <-]. simpl.
      destruct (String.eqb_spec s "*"); [contradiction|]. rewrite Hc. reflexivity.
  - destruct (check_all n vs xs) eqn:Hc; simpl; [|discriminate].
    intros [= <-]. simpl. rewrite Hc. reflexivity.
  - discriminate.
Qed.

(** X7: once [get_results] has passed its validation, the instance it
    leaves behind (with the wildcards expanded and [toolkit] replaced by
    its validated value) passes the validation again, and a second
    [get_results] leaves the instance as it is, whatever the network and
    process state. *)
Theorem get_results_validation_stable (ca : class_attrs) (n n' : net) (c : collator)
    (w w' : world) :
  first_error (validation_steps ca c) = None ->
  let c1 := self (snd (get_results ca n {| self := c; wld := w |})) in
  first_error (validation_steps ca c1) = None /\
  self (snd (get_results ca n' {| self := c1; wld := w' |})) = c1.
Proof.
  intros Hf.
  destruct (first_error_None ca c Hf) as (H0 & [v1 H1] & [v2 H2] & [v3 H3] & H4 & [v4 H5]).
  rewrite (get_results_pass ca n c w v1 v2 v3 v4 H0 H1 H2 H3 H4 H5). simpl.
  set (c1 := set_toolkit (set_problem_list (set_classifiers c v1) v2) v4).
  assert (H5' : _check_valid_parameters (toolkit c1) VALID_TOOLKITS "toolkit" = Ok v4)
    by exact (check_valid_parameters_reapply _ _ _ _ H5).
  assert (H4' : check_resamples c1 = Ok tt) by exact H4.
  split.
  - unfold validation_steps. change (urls c1) with (urls c).
    change (classifiers c1) with (classifiers c). change (problem_list c1) with (problem_list c).
    change (metric c1) with (metric c).
    rewrite H0, H1, H2, H3, H4'. change (toolkit c1) with v4 in H5'. rewrite H5'.
    reflexivity.
  - rewrite (get_results_pass ca n' c1 w' v1 v2 v3 v4 H0 H1 H2 H3 H4' H5'). simpl.
    subst c1. destruct c; reflexivity.
Qed.

Lemma get_results_validation_stable_witness :
  first_error (validation_steps ca0 (new_collator_default [good_url])) = None /\
  self (snd (get_results ca0 net0
    {| self := self (snd (get_results ca0 net0 {| self := new_collator_default [good_url]; wld := w0 |}));
       wld := w0 |}))
  = self (snd (get_results ca0 net0 {| self := new_collator_default [good_url]; wld := w0 |})).
Proof.
  assert (H : first_error (validation_steps ca0 (new_collator_default [good_url])) = None)
    by (vm_compute; reflexivity).
  split; [exact H|].
  exact (proj2 (get_results_validation_stable ca0 net0 net0 _ w0 w0 H)).
Defined.


(** X8: defining the class (the import of the module) succeeds exactly
    when both JSON tables can be fetched and every record carries the key
    read from it; [VALID_CLASSIFIERS] and [VALID_PROBLEMS] are then the
    key values in the order of the records, and the cache holds both
    lists. *)
Theorem define_class_ok (n : net) (ca : class_attrs) :
  (fst (define_class n empty_world) = Ok ca <->
   (exists rs1, get_json n CLASSIFIERS_REQUEST_URL = Some rs1 /\
      map (fun r => r !! "Acronym") rs1 = map Some (VALID_CLASSIFIERS ca)) /\
   (exists rs2, get_json n PROBLEM_REQUEST_URL = Some rs2 /\
      map (fun r => r !! "Dataset") rs2 = map Some (VALID_PROBLEMS ca))) /\
  (fst (define_class n empty_world) = Ok ca ->
   cache (snd (define_class n empty_world)) !! (CLASSIFIERS_REQUEST_URL, "Acronym")
     = Some (VALID_CLASSIFIERS ca) /\
   cache (snd (define_class n empty_world)) !! (PROBLEM_REQUEST_URL, "Dataset")
     = Some (VALID_PROBLEMS ca)).
Proof.
  unfold define_class, get_enum_from_url, get_enum_from_url_body. cbn [cache empty_world].
  rewrite lookup_empty.
  destruct (get_json n CLASSIFIERS_REQUEST_URL) as [rs1|] eqn:J1.
  2:{ simpl. split; [split; [discriminate|]|discriminate].
      intros [[rs [H _]] _]. discriminate. }
  destruct (collect_key "Acronym" rs1) as [cls|e] eqn:K1.
  2:{ simpl. split; [split; [discriminate|]|discriminate].
      intros [[rs [[= <-] Hm]] _]. apply collect_key_ok in Hm. congruence. }
  cbn [cache log]. rewrite lookup_insert_ne, lookup_empty by (intros [=]).
  destruct (get_json n PROBLEM_REQUEST_URL) as [rs2|] eqn:J2.
  2:{ simpl. split; [split; [discriminate|]|discriminate].
      intros [_ [rs [H _]]]. discriminate. }
  destruct (collect_key "Dataset" rs2) as [probs|e] eqn:K2.
  2:{ simpl. split; [split; [discriminate|]|discriminate].
      intros [_ [rs [[= <-] Hm]]]. apply collect_key_ok in Hm. congruence. }
  cbn [fst snd cache].
  split; [split|].
  - intros [= <-]. simpl. split; eexists; (split; [reflexivity|]); apply collect_key_ok; assumption.
  - intros [[r1 [[= <-] M1]] [r2 [[= <-] M2]]].
    apply collect_key_ok in M1, M2. destruct ca; simpl in *. congruence.
  - intros [= <-]. simpl. rewrite lookup_insert_eq.
    rewrite lookup_insert_ne by (intros [=]). rewrite lookup_insert_eq. split; reflexivity.
Qed.


(** X20: [lru_cache] does not store exceptions: a call of
    [get_enum_from_url] that raises was a cache miss, fetched once and
    left the cache as it was, so calling again fetches the URL again. *)
Theorem get_enum_from_url_exception_not_cached (n : net) (u k : string) (w : world) (e : exc) :
  fst (get_enum_from_url n u k w) = Exc e ->
  cache w !! (u, k) = None /\
  snd (get_enum_from_url n u k w) = {| cache := cache w; log := (log w ++ [Fetch u])%list |} /\
  log (snd (get_enum_from_url n u k (snd (get_enum_from_url n u k w))))
    = (log w ++ [Fetch u; Fetch u])%list.
Proof.
  unfold get_enum_from_url, get_enum_from_url_body.
  destruct (cache w !! (u, k)) as [vs|] eqn:Hc; [discriminate|].
  destruct (get_json n u) as [rs|]; [destruct (collect_key k rs) as [vs|e']; [discriminate|]|];
    intros [= <-]; simpl; rewrite Hc;
    (split; [reflexivity|]); (split; [reflexivity|]);
    rewrite <- app_assoc; reflexivity.
Qed.

Lemma get_enum_from_url_exception_not_cached_witness :
  fst (get_enum_from_url {| get_json := fun _ => None; get_text := fun _ => None |}
         PROBLEM_REQUEST_URL "Dataset" empty_world) = Exc (FetchError PROBLEM_REQUEST_URL) /\
  log (snd (get_enum_from_url {| get_json := fun _ => None; get_text := fun _ => None |}
              PROBLEM_REQUEST_URL "Dataset"
              (snd (get_enum_from_url {| get_json := fun _ => None; get_text := fun _ => None |}
                      PROBLEM_REQUEST_URL "Dataset" empty_world))))
  = [Fetch PROBLEM_REQUEST_URL; Fetch PROBLEM_REQUEST_URL].
Proof.
  assert (H : fst (get_enum_from_url {| get_json := fun _ => None; get_text := fun _ => None |}
                     PROBLEM_REQUEST_URL "Dataset" empty_world)
              = Exc (FetchError PROBLEM_REQUEST_URL)).
  { unfold get_enum_from_url. simpl. rewrite lookup_empty. reflexivity. }
  split; [exact H|].
  exact (proj2 (proj2 (get_enum_from_url_exception_not_cached _ _ _ empty_world _ H))).
Defined.

End CollatorExtra.

Module AlignerExtra.
Import Aligners AlignerFacts.

(** Case analysis of a monadic run, innermost scrutinees first, so that
    the [__dict__] threaded through [getattr] stays visible. *)
Ltac run_inner H :=
  repeat (simpl in H;
          match type of H with
          | context [match ?x with _ => _ end] =>
              lazymatch x with
              | context [match _ with _ => _ end] => fail
              | _ => let E := fresh "E" in destruct x eqn:E; try discriminate H
              end
          end);
  simpl in H.

(** Helper: a fit that raises returns the [__dict__] it was given. *)
Lemma AlignerDTW_fit_exc dtw (X : list frame) (d d' : dict) (e : exc) :
  AlignerDTW__fit dtw X d = (Exc e, d') -> d' = d.
Proof.
  unfold AlignerDTW__fit, obind, getattr, olift, oret, oraise, setattr.
  intros H. run_inner H; congruence.
Qed.

Lemma AlignerDTWdist_fit_exc dtw call_obj (X : list frame) (d d' : dict) (e : exc) :
  AlignerDTWdist__fit dtw call_obj X d = (Exc e, d') -> d' = d.
Proof.
  unfold AlignerDTWdist__fit, obind, getattr, olift, oret, oraise, setattr.
  intros H. run_inner H; congruence.
Qed.

(** X10: a fit of either class that raises leaves the aligner exactly as
    it was: every check and every external call comes before the first
    attribute write. *)
Theorem fit_exception_leaves_object dtw call_obj (X : list frame) (d : dict) :
  (forall e d', AlignerDTW__fit dtw X d = (Exc e, d') -> d' = d) /\
  (forall e d', AlignerDTWdist__fit dtw call_obj X d = (Exc e, d') -> d' = d).
Proof.
  split; intros e d'; [apply AlignerDTW_fit_exc|apply AlignerDTWdist_fit_exc].
Qed.

(** X11: a fit writes no attribute but its results: [AlignerDTW._fit]
    touches only [alignment], [X] and [variable_to_align], and
    [AlignerDTWdist._fit] only [alignment] and [X]; the configuration
    read from the object is left as it was. *)
Theorem fit_writes_only_results dtw call_obj (X : list frame) (d : dict) (k : string) :
  k <> "alignment" -> k <> "X" ->
  (k <> "variable_to_align" -> snd (AlignerDTW__fit dtw X d) !! k = d !! k) /\
  snd (AlignerDTWdist__fit dtw call_obj X d) !! k = d !! k.
Proof.
  intros Ha HX. split.
  - intros Hv. destruct (AlignerDTW__fit dtw X d) as [[[]|e] d'] eqn:H.
    + revert H. unfold AlignerDTW__fit, obind, getattr, olift, oret, oraise, setattr.
      intros H. run_inner H; injection H as <-; simpl;
      rewrite !lookup_insert_ne by congruence; reflexivity.
    + simpl. rewrite (AlignerDTW_fit_exc _ _ _ _ _ H). reflexivity.
  - destruct (AlignerDTWdist__fit dtw call_obj X d) as [[[]|e] d'] eqn:H.
    + revert H. unfold AlignerDTWdist__fit, obind, getattr, olift, oret, oraise, setattr.
      intros H. run_inner H; injection H as <-; simpl;
      rewrite !lookup_insert_ne by congruence; reflexivity.
    + simpl. rewrite (AlignerDTWdist_fit_exc _ _ _ _ _ _ H). reflexivity.
Qed.

(** X12: before any fit (no [alignment] attribute), each of the three
    queries of either class raises [AttributeError] for [alignment] and
    changes nothing. *)
Theorem queries_before_fit (d : dict) :
  d !! "alignment" = None ->
  AlignerDTW_get_alignment d = (Exc (AttributeError "alignment"), d) /\
  AlignerDTW_get_distance d = (Exc (AttributeError "alignment"), d) /\
  AlignerDTW_get_distance_matrix d = (Exc (AttributeError "alignment"), d) /\
  AlignerDTWdist_get_alignment d = (Exc (AttributeError "alignment"), d) /\
  AlignerDTWdist_get_distance d = (Exc (AttributeError "alignment"), d) /\
  AlignerDTWdist_get_distance_matrix d = (Exc (AttributeError "alignment"), d).
Proof.
  intros H.
  unfold AlignerDTW_get_alignment, AlignerDTW_get_distance, AlignerDTW_get_distance_matrix,
    AlignerDTWdist_get_alignment, AlignerDTWdist_get_distance,
    AlignerDTWdist_get_distance_matrix, get_alignment_obj, obind, getattr, oret, oraise.
  simpl. rewrite H. repeat split.
Qed.

(** Helper: with [variable_to_align] unset, [AlignerDTW._fit] behaves as
    on the object with [variable_to_align] set to the first column of
    [X[0]]; only the [__dict__] returned after an exception differs. *)
Lemma AlignerDTW_fit_first_column dtw (d : dict) (X1 X2 : frame) (rest : list frame)
    (c : string) (cs : list string) :
  d !! "variable_to_align" = Some ANone -> frame_columns X1 = c :: cs ->
  AlignerDTW__fit dtw (X1 :: X2 :: rest) (<["variable_to_align" := AStr c]> d)
  = match AlignerDTW__fit dtw (X1 :: X2 :: rest) d with
    | (Ok u, d') => (Ok u, d')
    | (Exc e, _) => (Exc e, <["variable_to_align" := AStr c]> d)
    end.
Proof.
  intros Hv Hc.
  unfold AlignerDTW__fit, obind, getattr, olift, oret, oraise, setattr. simpl.
  repeat (simpl;
          first [ rewrite lookup_insert_eq | rewrite lookup_insert_ne by discriminate
                | rewrite Hv | rewrite Hc | rewrite String.eqb_refl
                | match goal with
                  | |- context [match ?x with _ => _ end] =>
                      lazymatch x with
                      | context [match _ with _ => _ end] => fail
                      | _ => let E := fresh "E" in destruct x eqn:E
                      end
                  end ]); try reflexivity.
  rewrite (insert_insert_ne _ "alignment" "variable_to_align") by discriminate.
  rewrite (insert_insert_ne _ "X" "variable_to_align") by discriminate.
  rewrite insert_insert_eq. reflexivity.
Qed.

(** X13: with [variable_to_align] left at [None], [AlignerDTW._fit]
    aligns the first column [c] of [X[0]]: it has the outcome of a fit
    with [variable_to_align] set to [c], and a successful fit stores [c]
    in [variable_to_align], so later fits keep aligning [c]. *)
Theorem AlignerDTW_fit_default_variable dtw (d : dict) (X1 X2 : frame) (rest : list frame)
    (c : string) (cs : list string) :
  d !! "variable_to_align" = Some ANone -> frame_columns X1 = c :: cs ->
  fst (AlignerDTW__fit dtw (X1 :: X2 :: rest) d)
    = fst (AlignerDTW__fit dtw (X1 :: X2 :: rest) (<["variable_to_align" := AStr c]> d)) /\
  (forall d', AlignerDTW__fit dtw (X1 :: X2 :: rest) d = (Ok tt, d') ->
     AlignerDTW__fit dtw (X1 :: X2 :: rest) (<["variable_to_align" := AStr c]> d) = (Ok tt, d') /\
     d' !! "variable_to_align" = Some (AStr c)).
Proof.
  intros Hv Hc.
  rewrite (AlignerDTW_fit_first_column dtw d X1 X2 rest c cs Hv Hc).
  split.
  - destruct (AlignerDTW__fit dtw (X1 :: X2 :: rest) d) as [[u|e] d']; reflexivity.
  - intros d' H. rewrite H. split; [reflexivity|].
    revert H. unfold AlignerDTW__fit, obind, getattr, olift, oret, oraise, setattr.
    intros H. run_inner H;
      first [congruence | injection H as <-; rewrite lookup_insert_eq; congruence].
Qed.

Lemma AlignerDTW_fit_default_variable_witness :
  <["variable_to_align" := ANone]> Samples.dict0 !! "variable_to_align" = Some ANone /\
  frame_columns Samples.seqB = "b" :: ["a"] /\
  fst (AlignerDTW__fit Samples.dtw0 [Samples.seqB; Samples.seqA]
         (<["variable_to_align" := ANone]> Samples.dict0))
  = fst (AlignerDTW__fit Samples.dtw0 [Samples.seqB; Samples.seqA]
           (<["variable_to_align" := AStr "b"]> (<["variable_to_align" := ANone]> Samples.dict0))).
Proof.
  assert (H1 : <["variable_to_align" := ANone]> Samples.dict0 !! "variable_to_align" = Some ANone)
    by (rewrite lookup_insert_eq; reflexivity).
  assert (H2 : frame_columns Samples.seqB = "b" :: ["a"]) by reflexivity.
  split; [exact H1|]. split; [exact H2|].
  exact (proj1 (AlignerDTW_fit_default_variable Samples.dtw0 _ Samples.seqB Samples.seqA []
                  "b" ["a"] H1 H2)).
Defined.

(** X14: with its configuration attributes present, [AlignerDTW._fit]
    raises [IndexError] and changes nothing when fewer than two
    sequences are passed, and when [variable_to_align] is [None] and
    [X[0]] has no column to default to. *)
Theorem AlignerDTW_fit_index_errors dtw (d : dict) (X : list frame)
    (dm sp wt ob oe : attr) :
  d !! "dist_method" = Some dm -> d !! "step_pattern" = Some sp ->
  d !! "window_type" = Some wt -> d !! "open_begin" = Some ob ->
  d !! "open_end" = Some oe ->
  (length X < 2 ->
   AlignerDTW__fit dtw X d = (Exc (IndexError "list index out of range"), d)) /\
  (forall X1 X2 rest, X = X1 :: X2 :: rest ->
   d !! "variable_to_align" = Some ANone -> frame_columns X1 = [] ->
   AlignerDTW__fit dtw X d
   = (Exc (IndexError "index 0 is out of bounds for axis 0 with size 0"), d)).
Proof.
  intros Hdm Hsp Hwt Hob Hoe.
  unfold AlignerDTW__fit, obind, getattr, olift, oret, oraise, setattr.
  rewrite Hdm, Hsp, Hwt, Hob, Hoe. simpl. split.
  - intros Hl. destruct X as [|X1 [|X2 rest]]; simpl in Hl; try lia; reflexivity.
  - intros X1 X2 rest -> Hv Hc. simpl. rewrite Hv. simpl. rewrite Hc. reflexivity.
Qed.

Lemma AlignerDTW_fit_index_errors_witness :
  Samples.dict0 !! "dist_method" = Some (AStr "euclidean") /\
  AlignerDTW__fit Samples.dtw0 [Samples.seqA] Samples.dict0
  = (Exc (IndexError "list index out of range"), Samples.dict0).
Proof.
  assert (H : Samples.dict0 !! "dist_method" = Some (AStr "euclidean")) by reflexivity.
  split; [exact H|].
  apply (AlignerDTW_fit_index_errors Samples.dtw0 Samples.dict0 [Samples.seqA]
           (AStr "euclidean") (AStr "symmetric2") (AStr "none") (ABool false) (ABool false));
    try reflexivity.
  simpl. lia.
Defined.

(** X15: with its configuration attributes present, [AlignerDTWdist._fit]
    on fewer than two sequences raises [IndexError] and changes nothing;
    the transformer and the engine are not called. *)
Theorem AlignerDTWdist_fit_too_few_sequences dtw call_obj (d : dict) (X : list frame)
    (dt sp wt ob oe : attr) :
  d !! "dist_trafo" = Some dt -> d !! "step_pattern" = Some sp ->
  d !! "window_type" = Some wt -> d !! "open_begin" = Some ob ->
  d !! "open_end" = Some oe -> length X < 2 ->
  AlignerDTWdist__fit dtw call_obj X d = (Exc (IndexError "list index out of range"), d).
Proof.
  intros Hdt Hsp Hwt Hob Hoe Hl.
  unfold AlignerDTWdist__fit, obind, getattr, olift, oret, oraise, setattr.
  rewrite Hdt, Hsp, Hwt, Hob, Hoe. simpl.
  destruct X as [|X1 [|X2 rest]]; simpl in Hl; try lia; reflexivity.
Qed.

Lemma AlignerDTWdist_fit_too_few_sequences_witness :
  AlignerDTWdist__fit Samples.dtw0 Samples.call0 [] Samples.dict0
  = (Exc (IndexError "list index out of range"), Samples.dict0).
Proof.
  apply (AlignerDTWdist_fit_too_few_sequences Samples.dtw0 Samples.call0 Samples.dict0 []
           (AObj 3) (AStr "symmetric2") (AStr "none") (ABool false) (ABool false));
    try reflexivity.
  simpl. lia.
Defined.

(** X16: after a successful fit of either class, [X] holds the input
    sequences, and [get_alignment] and [get_distance] read one and the
    same stored alignment: the table has columns "ind0" and "ind1" with
    its two index arrays, and the distance is its distance. *)
Theorem queries_after_fit dtw call_obj (X : list frame) (d d' : dict) :
  (AlignerDTW__fit dtw X d = (Ok tt, d') ->
   exists a, d' !! "alignment" = Some (AAlign a) /\ d' !! "X" = Some (AFrames X) /\
     AlignerDTW_get_alignment d' = (Ok [("ind0", index1 a); ("ind1", index2 a)], d') /\
     AlignerDTW_get_distance d' = (Ok (distance a), d')) /\
  (AlignerDTWdist__fit dtw call_obj X d = (Ok tt, d') ->
   exists a, d' !! "alignment" = Some (AAlign a) /\ d' !! "X" = Some (AFrames X) /\
     AlignerDTWdist_get_alignment d' = (Ok [("ind0", index1 a); ("ind1", index2 a)], d') /\
     AlignerDTWdist_get_distance d' = (Ok (distance a), d')).
Proof.
  unfold AlignerDTW_get_alignment, AlignerDTW_get_distance, AlignerDTWdist_get_alignment,
    AlignerDTWdist_get_distance, get_alignment_obj.
  split.
  - unfold AlignerDTW__fit, obind, getattr, olift, oret, oraise, setattr.
    intros H. run_inner H; injection H as <-; eexists;
      rewrite ?lookup_insert_eq, !lookup_insert_ne, ?lookup_insert_eq by discriminate;
      simpl; rewrite ?lookup_insert_ne, lookup_insert_eq by discriminate;
      repeat split.
  - unfold AlignerDTWdist__fit, obind, getattr, olift, oret, oraise, setattr.
    intros H. run_inner H; injection H as <-; eexists;
      rewrite lookup_insert_ne, lookup_insert_eq by discriminate;
      simpl; rewrite ?lookup_insert_ne, lookup_insert_eq by discriminate;
      repeat split.
Qed.

(** X17: constructing an [AlignerDTWdist] and fitting it composes as the
    code reads: the supplied transformer is called on [X[0]] and [X[1]],
    the engine receives its matrix with the constructor's [step_pattern],
    [window_type], [open_begin] and [open_end], and on success the
    alignment and [X] are added to the constructed object; on any
    exception the object is the constructed one. *)
Theorem AlignerDTWdist_construct_then_fit dtw call_obj (a : AlignerDTWdist_args) (i : instance)
    (X1 X2 : frame) (rest : list frame) :
  AlignerDTWdist_new a = Ok i ->
  AlignerDTWdist__fit dtw call_obj (X1 :: X2 :: rest) (inst_dict i)
  = match call_attr call_obj (dist_trafo_arg a) X1 X2 with
    | Ok m =>
        match dtw (DtwMatrix m (dstep_pattern_arg a) (dwindow_type_arg a)
                     (dopen_begin_arg a) (dopen_end_arg a)) with
        | Ok al => (Ok tt, <["X" := AFrames (X1 :: X2 :: rest)]>
                             (<["alignment" := AAlign al]> (inst_dict i)))
        | Exc e => (Exc e, inst_dict i)
        end
    | Exc e => (Exc e, inst_dict i)
    end.
Proof.
  destruct a as [t sp wt ob oe].
  unfold AlignerDTWdist_new, construct, AlignerDTWdist___init__, py_super, BaseAligner___init__,
    obind, oret, oraise, setattr. simpl.
  destruct t; try discriminate; intros [= <-]; simpl;
    unfold AlignerDTWdist__fit, obind, getattr, olift, oret, oraise, setattr;
    repeat (simpl;
            first [ rewrite lookup_insert_eq | rewrite lookup_insert_ne by discriminate ]);
    simpl; try reflexivity;
    repeat (case_match; simpl); reflexivity.
Qed.

Lemma AlignerDTWdist_construct_then_fit_witness :
  exists i, AlignerDTWdist_new {| dist_trafo_arg := AObj 3; dstep_pattern_arg := AStr "symmetric2";
                                  dwindow_type_arg := AStr "none"; dopen_begin_arg := ABool false;
                                  dopen_end_arg := ABool false |} = Ok i /\
    AlignerDTWdist__fit Samples.dtw0 Samples.call0 [Samples.seqA; Samples.seqB] (inst_dict i)
    = match call_attr Samples.call0 (AObj 3) Samples.seqA Samples.seqB with
      | Ok m =>
          match Samples.dtw0 (DtwMatrix m (AStr "symmetric2") (AStr "none")
                                (ABool false) (ABool false)) with
          | Ok al => (Ok tt, <["X" := AFrames [Samples.seqA; Samples.seqB]]>
                               (<["alignment" := AAlign al]> (inst_dict i)))
          | Exc e => (Exc e, inst_dict i)
          end
      | Exc e => (Exc e, inst_dict i)
      end.
Proof.
  eexists. split; [reflexivity|].
  exact (AlignerDTWdist_construct_then_fit Samples.dtw0 Samples.call0
           {| dist_trafo_arg := AObj 3; dstep_pattern_arg := AStr "symmetric2";
              dwindow_type_arg := AStr "none"; dopen_begin_arg := ABool false;
              dopen_end_arg := ABool false |} _ Samples.seqA Samples.seqB [] eq_refl).
Defined.

(** X18: a second [AlignerDTWdist._fit] replaces the first completely:
    on an object already fitted it has the outcome, and on success the
    exact [__dict__], of a fit on the object before the first fit. *)
Theorem AlignerDTWdist_refit dtw call_obj (X X' : list frame) (d d1 : dict) :
  AlignerDTWdist__fit dtw call_obj X d = (Ok tt, d1) ->
  AlignerDTWdist__fit dtw call_obj X' d1
  = match AlignerDTWdist__fit dtw call_obj X' d with
    | (Ok u, d2) => (Ok u, d2)
    | (Exc e, _) => (Exc e, d1)
    end.
Proof.
  unfold AlignerDTWdist__fit, obind, getattr, olift, oret, oraise, setattr.
  intros H. run_inner H. injection H as <-.
  repeat (simpl;
          first [ rewrite lookup_insert_ne by discriminate
                | match goal with
                  | |- context [match ?x with _ => _ end] =>
                      lazymatch x with
                      | context [match _ with _ => _ end] => fail
                      | _ => let E := fresh "E" in destruct x eqn:E
                      end
                  end ]); try congruence.
  rewrite (insert_insert_ne _ "alignment" "X") by discriminate.
  rewrite !insert_insert_eq. congruence.
Qed.

Lemma fit_writes_only_results_witness :
  "step_pattern" <> "alignment" /\ "step_pattern" <> "X" /\
  snd (AlignerDTWdist__fit Samples.dtw0 Samples.call0 [Samples.seqA; Samples.seqB] Samples.dict0)
    !! "step_pattern" = Samples.dict0 !! "step_pattern".
Proof.
  assert (H1 : "step_pattern" <> "alignment") by discriminate.
  assert (H2 : "step_pattern" <> "X") by discriminate.
  split; [exact H1|]. split; [exact H2|].
  exact (proj2 (fit_writes_only_results Samples.dtw0 Samples.call0 [Samples.seqA; Samples.seqB]
                  Samples.dict0 "step_pattern" H1 H2)).
Defined.

Lemma queries_before_fit_witness :
  Samples.dict0 !! "alignment" = None /\
  AlignerDTWdist_get_distance Samples.dict0 = (Exc (AttributeError "alignment"), Samples.dict0).
Proof.
  assert (H : Samples.dict0 !! "alignment" = None) by reflexivity.
  split; [exact H|].
  exact (proj1 (proj2 (proj2 (proj2 (proj2 (queries_before_fit Samples.dict0 H)))))).
Defined.

Lemma AlignerDTWdist_refit_witness :
  AlignerDTWdist__fit Samples.dtw0 Samples.call0 [Samples.seqA; Samples.seqB] Samples.dict0
    = (Ok tt, snd (AlignerDTWdist__fit Samples.dtw0 Samples.call0 [Samples.seqA; Samples.seqB]
                    Samples.dict0)) /\
  AlignerDTWdist__fit Samples.dtw0 Samples.call0 [Samples.seqB; Samples.seqA]
    (snd (AlignerDTWdist__fit Samples.dtw0 Samples.call0 [Samples.seqA; Samples.seqB] Samples.dict0))
  = match AlignerDTWdist__fit Samples.dtw0 Samples.call0 [Samples.seqB; Samples.seqA] Samples.dict0 with
    | (Ok u, d2) => (Ok u, d2)
    | (Exc e, _) => (Exc e, snd (AlignerDTWdist__fit Samples.dtw0 Samples.call0
                                  [Samples.seqA; Samples.seqB] Samples.dict0))
    end.
Proof.
  assert (H : AlignerDTWdist__fit Samples.dtw0 Samples.call0 [Samples.seqA; Samples.seqB] Samples.dict0
              = (Ok tt, snd (AlignerDTWdist__fit Samples.dtw0 Samples.call0
                              [Samples.seqA; Samples.seqB] Samples.dict0))) by reflexivity.
  split; [exact H|].
  exact (AlignerDTWdist_refit Samples.dtw0 Samples.call0 _ [Samples.seqB; Samples.seqA] _ _ H).
Defined.

End AlignerExtra.
